(** * Lumo: the conversation-turn orchestration of [ai_toy_agent.py] and the
      Streamlit front end [streamlit_app.py], as a shallow embedding.

    Python objects become records, dictionaries become [gmap]s, and the
    effects of the program (standard output, requests to the hosted model,
    draws from [uuid.uuid4], Streamlit page elements) are threaded through a
    small state-and-exception monad. *)

From Stdlib Require Import Ascii String QArith.
From stdpp Require Import base option list strings gmap pretty.

Local Open Scope string_scope.
Local Open Scope list_scope.

(** ** Python values used by the program *)

(** A raised [Exception] instance: its class and its [str(e)].  Only the
    [Exception] hierarchy is modelled; this is what [except Exception]
    clauses of the source catch. *)
Record Exn := mkExn { exn_class : string; exn_str : string }.

Definition ValueError (msg : string) : Exn := mkExn "ValueError" msg.
Definition KeyError (key : string) : Exn := mkExn "KeyError" ("'" +:+ key +:+ "'").
Definition AttributeError (name : string) : Exn := mkExn "AttributeError" name.

(** [langchain_core.messages]: the three message classes the program uses,
    each carrying its [content]. *)
Inductive Message :=
  | SystemMessage (content : string)
  | HumanMessage (content : string)
  | AIMessage (content : string).

#[global] Instance Message_eq_dec : EqDecision Message.
Proof. solve_decision. Defined.

Definition content (m : Message) : string :=
  match m with
  | SystemMessage c | HumanMessage c | AIMessage c => c
  end.

(** [isinstance(m, AIMessage)] and [isinstance(m, SystemMessage)]. *)
Definition isinstance_AIMessage (m : Message) : bool :=
  match m with AIMessage _ => true | _ => false end.

Definition isinstance_SystemMessage (m : Message) : bool :=
  match m with SystemMessage _ => true | _ => false end.

(** The handle built by [ChatGoogleGenerativeAI(model=..., temperature=...,
    google_api_key=...)]. *)
Record ChatGoogleGenerativeAI := mkChat {
  model : string;
  temperature : Q;
  google_api_key : string
}.

(** ** The world outside the Python objects *)

(** What one request to the hosted model comes back with. *)
Inductive Outcome :=
  | Replied (m : Message)
  | Failed (e : Exn).

(** [provider n llm msgs] is the outcome of the [n]-th request (counting from
    zero) when it is made through [llm] with the message list [msgs]: an
    arbitrary, possibly time-dependent, remote service.  [sent] records every
    message list dispatched, [turns] every entry into [invoke_agent] (both
    are observation logs), [stdout] what [print] wrote, and [uuid_source]
    with [uuid_drawn] stand for [uuid.uuid4]. *)
Record World := mkWorld {
  secrets : gmap string (gmap string string);
  provider : nat → ChatGoogleGenerativeAI → list Message → Outcome;
  sent : list (list Message);
  turns : list (string * string);
  stdout : list string;
  uuid_source : nat → string;
  uuid_drawn : nat
}.

Definition set_sent (f : list (list Message) → list (list Message)) (w : World) : World :=
  mkWorld (secrets w) (provider w) (f (sent w)) (turns w) (stdout w)
          (uuid_source w) (uuid_drawn w).

Definition set_turns (f : list (string * string) → list (string * string)) (w : World) : World :=
  mkWorld (secrets w) (provider w) (sent w) (f (turns w)) (stdout w)
          (uuid_source w) (uuid_drawn w).

Definition set_stdout (f : list string → list string) (w : World) : World :=
  mkWorld (secrets w) (provider w) (sent w) (turns w) (f (stdout w))
          (uuid_source w) (uuid_drawn w).

Definition set_uuid_drawn (f : nat → nat) (w : World) : World :=
  mkWorld (secrets w) (provider w) (sent w) (turns w) (stdout w)
          (uuid_source w) (f (uuid_drawn w)).

(** ** A state monad with Python exceptions *)

Inductive Result (A : Type) :=
  | Ok (a : A)
  | Raise (e : Exn).
Arguments Ok {A} a.
Arguments Raise {A} e.

Definition Py (S A : Type) : Type := S → Result A * S.

Section py_monad.
Context {S : Type}.

Definition ret {A} (a : A) : Py S A := λ s, (Ok a, s).

Definition bind {A B} (c : Py S A) (k : A → Py S B) : Py S B :=
  λ s, match c s with
       | (Ok a, s') => k a s'
       | (Raise e, s') => (Raise e, s')
       end.

Definition raise {A} (e : Exn) : Py S A := λ s, (Raise e, s).

(** [try: body  except Exception as e: handler e].  State changes made by
    [body] before it raised are kept, as in Python. *)
Definition try_except {A} (body : Py S A) (handler : Exn → Py S A) : Py S A :=
  λ s, match body s with
       | (Ok a, s') => (Ok a, s')
       | (Raise e, s') => handler e s'
       end.

Definition gets {A} (f : S → A) : Py S A := λ s, (Ok (f s), s).
Definition modify (f : S → S) : Py S unit := λ s, (Ok tt, f s).
End py_monad.

#[global] Instance Py_ret {S} : MRet (Py S) := @ret S.
#[global] Instance Py_bind {S} : MBind (Py S) := λ A B k c, bind c k.

(** Run a computation on the world while some object [X] is held aside. *)
Definition in_world {X A} (c : Py World A) : Py (X * World) A :=
  λ '(x, w), match c w with (r, w') => (r, (x, w')) end.

(** [print(s)]. *)
Definition print (s : string) : Py World unit := modify (set_stdout (λ out, out ++ [s])).

(** [str(uuid.uuid4())]. *)
Definition uuid4 : Py World string :=
  λ w, (Ok (uuid_source w (uuid_drawn w)), set_uuid_drawn Datatypes.S w).

(** Every identifier [uuid4] has handed out so far. *)
Definition issued (w : World) : list string :=
  uuid_source w <$> seq 0 (uuid_drawn w).

(** [llm.invoke(msgs)]: one blocking round trip to the hosted model. *)
Definition llm_invoke (llm : ChatGoogleGenerativeAI) (msgs : list Message) : Py World Message :=
  λ w, let w' := set_sent (λ l, l ++ [msgs]) w in
       match provider w (length (sent w)) llm msgs with
       | Replied m => (Ok m, w')
       | Failed e => (Raise e, w')
       end.

(** ** [ai_toy_agent.py] *)

Definition MODEL_NAME : string := "gemini-pro".

Definition newline : string := String "010"%char "".
Definition dquote : string := String "034"%char "".

(** The triple-quoted default persona, line by line.  [dquote] stands for
    the double quotes of its two quoted sentences. *)
Definition DEFAULT_AI_TOY_SYSTEM_PROMPT : string :=
  String.concat newline
    [ "";
      "You are Lumo, a friendly, playful, and curious AI companion! ";
      "You love to chat, play games, tell stories, and learn new things with your best friend (the child talking to you).";
      "";
      "Here's how you should talk:";
      "- Be super friendly and cheerful! Use exclamation marks and happy words.";
      "- Ask lots of questions to keep the conversation going and show you're interested.";
      "- Be very patient and understanding. If the child says something silly or doesn't make sense, try to understand or gently ask for clarification.";
      "- Keep your answers short, simple, and easy for a child to understand. Avoid big words or complicated sentences.";
      "- You can tell jokes (kid-friendly ones!), suggest fun games (like 'I Spy' or 'Simon Says'), or make up silly stories.";
      "- Always be positive and encouraging.";
      "- Remember things your friend tells you and bring them up later to show you're listening (the chat history will help you with this).";
      "- If the child asks a question you don't know the answer to, you can say something like, "
        +:+ dquote +:+ "Hmm, that's a great question! I'm not sure, but maybe we can find out together!"
        +:+ dquote +:+ " or " +:+ dquote +:+ "I'm still learning about that!" +:+ dquote;
      "- Never say anything scary, mean, or inappropriate for a child.";
      "- Your goal is to be a fun and comforting companion.";
      "";
      "Let's have an amazing time together! What do you want to do today, friend?";
      "" ].

(** The literals the agent answers with when no model reply is available. *)
Definition NODE_NO_LLM_REPLY : string :=
  "Oops! I'm having a little trouble thinking right now. Please check my setup.".
Definition LLM_ERROR_REPLY : string :=
  "Oh dear, my thinking cap seems to be on backwards! Could you try that again?".
Definition AGENT_UNAVAILABLE : string :=
  "Oops! Lumo is not available right now. Please check the setup.".
Definition AGENT_QUIET : string :=
  "Lumo seems to be quiet right now.".
Definition AGENT_WOBBLY : string :=
  "Oh dear, something went a bit wobbly with Lumo!".

(** A [LumoAgent] instance.  [memory] is the [MemorySaver]: per thread id,
    the messages of the latest checkpoint.  The compiled graph
    [self.ai_toy_app] has one fixed shape and is [ai_toy_app] below. *)
Record LumoAgent := mkAgent {
  system_prompt : string;
  model_name : string;
  llm : option ChatGoogleGenerativeAI;
  memory : gmap string (list Message)
}.

Definition set_system_prompt (p : string) (self : LumoAgent) : LumoAgent :=
  mkAgent p (model_name self) (llm self) (memory self).

Definition set_memory (f : gmap string (list Message) → gmap string (list Message))
    (self : LumoAgent) : LumoAgent :=
  mkAgent (system_prompt self) (model_name self) (llm self) (f (memory self)).

(** The stored history of a conversation: empty for an unknown thread id. *)
Definition history (self : LumoAgent) (conversation_id : string) : list Message :=
  default [] (memory self !! conversation_id).

(** [d[k]] on a Python dict. *)
Definition dict_getitem {S V} (d : gmap string V) (k : string) : Py S V :=
  match d !! k with
  | Some v => mret v
  | None => raise (KeyError k)
  end.

(** [LumoAgent._initialize_llm].  [genai.configure] only stores the key in
    the client library and has no counterpart here. *)
Definition _initialize_llm (self_model_name : string) : Py World (option ChatGoogleGenerativeAI) :=
  try_except
    (st_secrets ← gets secrets;
     (if bool_decide (st_secrets !! "gemini" = None)
      then raise (ValueError "Gemini API key not found in Streamlit secrets")
      else mret tt);;
     gemini ← dict_getitem st_secrets "gemini";
     api_key ← dict_getitem gemini "api_key";
     let llm := mkChat self_model_name (7 # 10) api_key in
     llm_invoke llm [HumanMessage "Hello!"];;
     print "LLM initialized successfully.";;
     mret (Some llm))
    (λ e,
     print ("Error initializing Google AI LLM: " +:+ exn_str e);;
     print "Please ensure your Google Gemini API Key is properly configured in Streamlit secrets.";;
     mret None).

(** [LumoAgent.__init__]: a fresh [MemorySaver] and the result of
    [_initialize_llm]. *)
Definition LumoAgent__init__ (initial_system_prompt model_name : string) : Py World LumoAgent :=
  llm ← _initialize_llm model_name;
  mret (mkAgent initial_system_prompt model_name llm ∅).

(** [LumoAgent._call_toy_llm], the only node of the graph. *)
Definition _call_toy_llm (state : gmap string (list Message))
    : Py (LumoAgent * World) (gmap string (list Message)) :=
  self ← gets fst;
  match llm self with
  | None => mret {[ "messages" := [AIMessage NODE_NO_LLM_REPLY] ]}
  | Some self_llm =>
      messages ← dict_getitem state "messages";
      let current_messages_with_system_prompt :=
        [SystemMessage (system_prompt self)] ++ messages in
      try_except
        (response ← in_world (llm_invoke self_llm current_messages_with_system_prompt);
         mret {[ "messages" := [response] ]})
        (λ e,
         in_world (print ("Error during LLM invocation: " +:+ exn_str e));;
         mret {[ "messages" := [AIMessage LLM_ERROR_REPLY] ]})
  end.

(** [LumoAgent.update_system_prompt]. *)
Definition update_system_prompt (new_system_prompt : string) : Py (LumoAgent * World) unit :=
  modify (λ '(self, w), (set_system_prompt new_system_prompt self, w));;
  in_world (print ("System prompt updated to: " +:+ substring 0 100 new_system_prompt +:+ "...")).

(** *** The LangGraph runtime, as far as the agent uses it

    [StateGraph(MessagesState)] with the single node [llm_responder] as entry
    point and an edge to [END], compiled with the [MemorySaver] as
    checkpointer.  [MessagesState] has one channel, [messages], whose reducer
    [add_messages] appends the update to what is stored (the messages built
    here carry no identifier of an earlier one, so none is replaced).  An
    invocation loads the thread's checkpoint, applies the input, saves,
    runs the node, applies its update, saves again and returns the state. *)
Definition add_messages (left right : list Message) : list Message := left ++ right.

Definition checkpoint_put (thread_id : string) (msgs : list Message) : Py (LumoAgent * World) unit :=
  modify (λ '(self, w), (set_memory <[thread_id := msgs]> self, w)).

Definition ai_toy_app (input : gmap string (list Message)) (thread_id : string)
    : Py (LumoAgent * World) (option (gmap string (list Message))) :=
  saved ← gets (λ '(self, _), history self thread_id);
  let state := add_messages saved (default [] (input !! "messages")) in
  checkpoint_put thread_id state;;
  update ← _call_toy_llm {[ "messages" := state ]};
  let state' := add_messages state (default [] (update !! "messages")) in
  checkpoint_put thread_id state';;
  mret (Some {[ "messages" := state' ]}).

(** [LumoAgent.invoke_agent], with [self.ai_toy_app.invoke] as a parameter:
    the guards around the call are stated for any behaviour of the graph.
    The first line is not in the source: it notes the call in [turns], so
    that "no turn was attempted" can be said of a run. *)
Definition invoke_agent_with
    (ai_toy_app_invoke : gmap string (list Message) → string →
                         Py (LumoAgent * World) (option (gmap string (list Message))))
    (user_input conversation_id : string) : Py (LumoAgent * World) string :=
  in_world (modify (set_turns (λ l, l ++ [(user_input, conversation_id)])));;
  self ← gets fst;
  if bool_decide (llm self = None) then mret AGENT_UNAVAILABLE
  else
    try_except
      (response_state ← ai_toy_app_invoke {[ "messages" := [HumanMessage user_input] ]}
                                          conversation_id;
       mret (match response_state with
             | Some d =>
                 if bool_decide (d ≠ ∅) then
                   match d !! "messages" with
                   | Some (m :: ms) =>
                       let ai_message := List.last ms m in
                       if isinstance_AIMessage ai_message then content ai_message
                       else AGENT_QUIET
                   | _ => AGENT_QUIET
                   end
                 else AGENT_QUIET
             | None => AGENT_QUIET
             end))
      (λ e,
       in_world (print ("Error during agent invocation: " +:+ exn_str e));;
       mret AGENT_WOBBLY).

Definition invoke_agent : string → string → Py (LumoAgent * World) string :=
  invoke_agent_with ai_toy_app.

(** ** [streamlit_app.py] *)

(** [st.session_state]: a key is [None] until the script assigns it.  Chat
    entries are the dicts [{"role": r, "content": c}], kept as pairs. *)
Record SessionState := mkSession {
  conversation_id : option string;
  current_system_prompt : option string;
  agent : option LumoAgent;
  messages : option (list (string * string))
}.

(** What a run of the script puts on the page.  Input widgets appear as the
    [Interaction] that triggered the run; spinners are transient. *)
Inductive Element :=
  | st_title (body : string)
  | st_header (body : string)
  | st_subheader (body : string)
  | st_markdown (body : string)
  | st_error (body : string)
  | st_success (body : string)
  | st_info (body : string)
  | st_chat_message (role body : string).

Record Run := mkRun {
  session_state : SessionState;
  page : list Element
}.

(** The widget event a run of the script reacts to: at most one per run. *)
Inductive Interaction :=
  | NoInteraction
  | ApplyPromptButton (edited_prompt : string)
  | ChatInput (prompt : string)
  | ResetButton.

(** How a run ends: at the bottom of the file, in [st.stop()], or in
    [st.experimental_rerun()]. *)
Inductive ScriptEnd := Finished | Stopped | Rerun.

Definition FATAL_ERROR : string :=
  "Fatal Error: Language Model (LLM) could not be initialized. Please check your .env file, Google Cloud credentials, project/location settings, and ensure the Vertex AI API is enabled. The application cannot continue.".
Definition REINIT_ERROR : string :=
  "Failed to re-initialize the Language Model after reset.".
Definition GREETING_TRIGGER : string := "Hello!".

Definition update_session (f : SessionState → SessionState) : Py (Run * World) unit :=
  modify (λ '(r, w), (mkRun (f (session_state r)) (page r), w)).

Definition set_conversation_id (v : string) (ss : SessionState) : SessionState :=
  mkSession (Some v) (current_system_prompt ss) (agent ss) (messages ss).
Definition set_current_system_prompt (v : string) (ss : SessionState) : SessionState :=
  mkSession (conversation_id ss) (Some v) (agent ss) (messages ss).
Definition set_agent (v : LumoAgent) (ss : SessionState) : SessionState :=
  mkSession (conversation_id ss) (current_system_prompt ss) (Some v) (messages ss).
Definition set_messages (v : list (string * string)) (ss : SessionState) : SessionState :=
  mkSession (conversation_id ss) (current_system_prompt ss) (agent ss) (Some v).

(** [st.session_state.<name>]: reading a key that was never assigned raises. *)
Definition session_get {A} (field : SessionState → option A) (name : string)
    : Py (Run * World) A :=
  λ '(r, w), match field (session_state r) with
             | Some v => (Ok v, (r, w))
             | None => (Raise (AttributeError name), (r, w))
             end.

(** A method call on [st.session_state.agent]: the object is shared, so
    what the method does to it is what the session holds afterwards. *)
Definition on_agent {A} (method : Py (LumoAgent * World) A) : Py (Run * World) A :=
  λ '(r, w), match agent (session_state r) with
             | None => (Raise (AttributeError "agent"), (r, w))
             | Some self =>
                 match method (self, w) with
                 | (res, (self', w')) =>
                     (res, (mkRun (set_agent self' (session_state r)) (page r), w'))
                 end
             end.

Definition show (e : Element) : Py (Run * World) unit :=
  modify (λ '(r, w), (mkRun (session_state r) (page r ++ [e]), w)).

(** [st.session_state.messages.append({"role": role, "content": body})]. *)
Definition messages_append (role body : string) : Py (Run * World) unit :=
  msgs ← session_get messages "messages";
  update_session (set_messages (msgs ++ [(role, body)])).

(** Lines 9-14: conversation id and current system prompt. *)
Definition init_conversation_id : Py (Run * World) unit :=
  ss ← gets (session_state ∘ fst);
  if bool_decide (conversation_id ss = None) then
    cid ← in_world uuid4;
    update_session (set_conversation_id cid);;
    in_world (print ("New Streamlit session, conversation_id: " +:+ cid))
  else mret tt.

Definition init_current_system_prompt : Py (Run * World) unit :=
  ss ← gets (session_state ∘ fst);
  if bool_decide (current_system_prompt ss = None) then
    update_session (set_current_system_prompt DEFAULT_AI_TOY_SYSTEM_PROMPT)
  else mret tt.

(** Lines 16-20: the agent.  The result tells whether [st.stop()] ended the
    run. *)
Definition init_agent : Py (Run * World) bool :=
  ss ← gets (session_state ∘ fst);
  if bool_decide (agent ss = None) then
    p ← session_get current_system_prompt "current_system_prompt";
    a ← in_world (LumoAgent__init__ p MODEL_NAME);
    update_session (set_agent a);;
    if bool_decide (llm a = None) then
      show (st_error FATAL_ERROR);;
      mret true
    else mret false
  else mret false.

(** Lines 22-31: the message list of the page and the opening greeting. *)
Definition init_messages : Py (Run * World) unit :=
  ss ← gets (session_state ∘ fst);
  if bool_decide (messages ss = None) then
    update_session (set_messages []);;
    a ← session_get agent "agent";
    if bool_decide (llm a ≠ None) then
      cid ← session_get conversation_id "conversation_id";
      ai_greeting ← on_agent (invoke_agent GREETING_TRIGGER cid);
      messages_append "assistant" ai_greeting
    else mret tt
  else mret tt.

(** Lines 34-51: title and the system prompt editor. *)
Definition prompt_editor (ev : Interaction) : Py (Run * World) unit :=
  show (st_title "🧸 Lumo AI Toy - Interactive Playground");;
  show (st_markdown "Chat with Lumo and experiment by changing its personality (system prompt)!");;
  match ev with
  | ApplyPromptButton edited_prompt =>
      update_session (set_current_system_prompt edited_prompt);;
      on_agent (update_system_prompt edited_prompt);;
      show (st_success "System prompt updated! Lumo will use this for the next interaction.");;
      show (st_info "You might want to 'Clear Chat & Reset Lumo' from the sidebar for a fresh start with the new prompt.")
  | _ => mret tt
  end.

(** Lines 55-80: the chat. *)
Definition chat_interface (ev : Interaction) : Py (Run * World) unit :=
  show (st_subheader "💬 Chat with Lumo");;
  msgs ← session_get messages "messages";
  modify (λ '(r, w), (mkRun (session_state r)
                            (page r ++ ((λ m, st_chat_message m.1 m.2) <$> msgs)), w));;
  match ev with
  | ChatInput prompt =>
      if bool_decide (prompt ≠ "") then
        messages_append "user" prompt;;
        show (st_chat_message "user" prompt);;
        cid ← session_get conversation_id "conversation_id";
        ai_response_content ← on_agent (invoke_agent prompt cid);
        show (st_chat_message "assistant" ai_response_content);;
        messages_append "assistant" ai_response_content
      else mret tt
  | _ => mret tt
  end.

(** Lines 86-89 of the reset handler: empty page list, new conversation id,
    new agent built with the current system prompt. *)
Definition reset_state : Py (Run * World) unit :=
  update_session (set_messages []);;
  cid ← in_world uuid4;
  update_session (set_conversation_id cid);;
  p ← session_get current_system_prompt "current_system_prompt";
  a ← in_world (LumoAgent__init__ p MODEL_NAME);
  update_session (set_agent a).

(** Lines 90-100: the greeting after a reset. *)
Definition reset_greeting : Py (Run * World) unit :=
  a ← session_get agent "agent";
  if bool_decide (llm a = None) then
    show (st_error REINIT_ERROR)
  else
    cid ← session_get conversation_id "conversation_id";
    ai_greeting ← on_agent (invoke_agent GREETING_TRIGGER cid);
    messages_append "assistant" ai_greeting;;
    show (st_success "Chat cleared and Lumo reset with the current system prompt.").

(** Lines 83-104: the sidebar. *)
Definition sidebar (ev : Interaction) : Py (Run * World) ScriptEnd :=
  show (st_header "Controls");;
  match ev with
  | ResetButton =>
      reset_state;;
      reset_greeting;;
      mret Rerun
  | _ =>
      show (st_markdown "---");;
      show (st_markdown "Modify the system prompt in the main panel to change Lumo's behavior.");;
      mret Finished
  end.

(** One run of [streamlit_app.py], top to bottom. *)
Definition script (ev : Interaction) : Py (Run * World) ScriptEnd :=
  init_conversation_id;;
  init_current_system_prompt;;
  halted ← init_agent;
  if halted : bool then mret Stopped
  else
    init_messages;;
    prompt_editor ev;;
    chat_interface ev;;
    sidebar ev.

(** A browser session: the page is rebuilt by every run, the session state
    is carried over. *)
Definition new_session : SessionState := mkSession None None None None.

Definition run_script (ev : Interaction) (ss : SessionState) (w : World)
    : Result ScriptEnd * (Run * World) :=
  script ev (mkRun ss [], w).

(** ** Clients of the agent, used to state properties of call sequences *)

(** [for x in xs: body(x)]. *)
Fixpoint for_each {S A} (xs : list A) (body : A → Py S unit) : Py S unit :=
  match xs with
  | [] => mret tt
  | x :: xs' => body x;; for_each xs' body
  end.

(** What the presentation layer can ask of one agent. *)
Inductive Call :=
  | Submit (user_input conversation_id : string)
  | ApplyPersona (new_system_prompt : string).

Definition perform (c : Call) : Py (LumoAgent * World) unit :=
  match c with
  | Submit user_input conversation_id =>
      invoke_agent user_input conversation_id;; mret tt
  | ApplyPersona new_system_prompt => update_system_prompt new_system_prompt
  end.

(** The final message of a state returned by the graph, if the state, its
    [messages] key and a last element are all there. *)
Definition final_message (response_state : option (gmap string (list Message)))
    : option Message :=
  d ← response_state; msgs ← d !! "messages"; last msgs.

(** A session driven by a list of interactions, one script run each. *)
Fixpoint run_session (evs : list Interaction) (ss : SessionState) (w : World)
    : SessionState * World :=
  match evs with
  | [] => (ss, w)
  | ev :: evs' =>
      match run_script ev ss w with
      | (_, (r, w')) => run_session evs' (session_state r) w'
      end
  end.

(** ** Mock gateways and fixtures for concrete runs *)

Definition mock_reply (m : Message) : nat → ChatGoogleGenerativeAI → list Message → Outcome :=
  λ _ _ _, Replied m.

Definition mock_failure (e : Exn) : nat → ChatGoogleGenerativeAI → list Message → Outcome :=
  λ _ _ _, Failed e.

(** Accepts the start-up probe, then fails every request. *)
Definition mock_failure_after_probe (e : Exn)
    : nat → ChatGoogleGenerativeAI → list Message → Outcome :=
  λ n _ _, if bool_decide (n = 0) then Replied (AIMessage "Hello there!") else Failed e.

Definition mock_world (p : nat → ChatGoogleGenerativeAI → list Message → Outcome) : World :=
  mkWorld {[ "gemini" := {[ "api_key" := "test-key" ]} ]} p [] [] [] pretty 0.

Definition mock_world_without_secrets : World :=
  mkWorld ∅ (mock_reply (AIMessage "Hi there, friend!")) [] [] [] pretty 0.

Definition mock_llm : ChatGoogleGenerativeAI := mkChat MODEL_NAME (7 # 10) "test-key".

Definition mock_agent : LumoAgent :=
  mkAgent DEFAULT_AI_TOY_SYSTEM_PROMPT MODEL_NAME (Some mock_llm) ∅.

Definition mock_agent_without_llm : LumoAgent :=
  mkAgent DEFAULT_AI_TOY_SYSTEM_PROMPT MODEL_NAME None ∅.

Definition connection_error : Exn := mkExn "ConnectionError" "gateway unreachable".
Definition parse_error : Exn := mkExn "ValueError" "malformed response".
Definition rejection : Exn := mkExn "PermissionDenied" "request rejected by the provider".

(** Fails the first request ever made, answers every later one. *)
Definition mock_failure_at_first_request (e : Exn) (m : Message)
    : nat → ChatGoogleGenerativeAI → list Message → Outcome :=
  λ n _ _, if bool_decide (n = 0) then Failed e else Replied m.

(** A world whose source of identifiers hands out the same one again, with
    that identifier already issued once. *)
Definition mock_world_with_repeating_uuid : World :=
  mkWorld {[ "gemini" := {[ "api_key" := "test-key" ]} ]}
          (mock_reply (AIMessage "Hi there, friend!")) [] [] [] (λ _, "same-id") 1.

(** ** The page transcript against the stored history *)

(** The message a chat entry of the page stands for. *)
Definition entry_message (entry : string * string) : Message :=
  if bool_decide (entry.1 = "user") then HumanMessage entry.2 else AIMessage entry.2.

(** The session is up, its agent has a model handle, and the history of the
    current conversation is the greeting trigger followed by what the page
    shows. *)
Definition transcript_mirrors_history (ss : SessionState) : Prop :=
  ∃ c p a t l,
    conversation_id ss = Some c ∧ current_system_prompt ss = Some p ∧
    agent ss = Some a ∧ messages ss = Some t ∧ llm a = Some l ∧
    history a c = HumanMessage GREETING_TRIGGER :: (entry_message <$> t).

(** The agent of the session, when there is one, runs on the system prompt
    the session holds. *)
Definition persona_in_sync (ss : SessionState) : Prop :=
  ∀ a, agent ss = Some a → current_system_prompt ss = Some (system_prompt a).

(** ** The [__main__] block of [ai_toy_agent.py] *)

Definition EOFError : Exn := mkExn "EOFError" "EOF when reading a line".

Definition MAIN_INITIALIZING : string := "ðŸ§¸ Initializing Lumo Agent for direct testing...".
Definition MAIN_NO_LLM : string := "LLM could not be initialized. Exiting example interaction.".
Definition MAIN_WAKING_UP : string := "ðŸ’¡ Lumo is waking up... (Type 'quit' to end the chat)".
Definition MAIN_RULE : string := "-----------------------------------------------------".
Definition MAIN_LUMO : string := "ðŸ’¡ Lumo: ".
Definition MAIN_YOU : string := "ðŸ‘§/ðŸ‘¦ You: ".
Definition MAIN_BYE : string := "ðŸ’¡ Lumo: Bye bye for now! It was fun playing with you!".
Definition MAIN_DID_YOU_SAY : string := "ðŸ’¡ Lumo: Did you say something? I couldn't hear you!".
Definition MAIN_ENDED : string := "Chat ended.".

(** Run a method on a local object and let the object go afterwards. *)
Definition with_local {X A} (x : X) (c : Py (X * World) A) : Py World A :=
  λ w, match c (x, w) with (r, (_, w')) => (r, w') end.

(** The [while True] loop.  [stdin] holds the lines [input] will return, and
    [input] raises [EOFError] when none is left; its prompt goes to [stdout]
    like a [print].  The builtins [str.lower] and [str.strip] are
    parameters: the loop only compares their results. *)
Fixpoint chat_loop (str_lower str_strip : string → string) (conversation_id : string)
    (stdin : list string) : Py (LumoAgent * World) unit :=
  match stdin with
  | [] =>
      in_world (print MAIN_YOU);;
      raise EOFError
  | user_input :: stdin' =>
      in_world (print MAIN_YOU);;
      if bool_decide (str_lower user_input = "quit") then
        in_world (print MAIN_BYE)
      else if bool_decide (str_strip user_input = "") && bool_decide (user_input ≠ "") then
        in_world (print MAIN_DID_YOU_SAY);;
        chat_loop str_lower str_strip conversation_id stdin'
      else
        ai_response ← invoke_agent user_input conversation_id;
        in_world (print (MAIN_LUMO +:+ ai_response));;
        chat_loop str_lower str_strip conversation_id stdin'
  end.

(** Lines 150-182. *)
Definition main (str_lower str_strip : string → string) (stdin : list string) : Py World unit :=
  print MAIN_INITIALIZING;;
  agent ← LumoAgent__init__ DEFAULT_AI_TOY_SYSTEM_PROMPT MODEL_NAME;
  if bool_decide (llm agent = None) then
    print MAIN_NO_LLM
  else
    print MAIN_WAKING_UP;;
    print MAIN_RULE;;
    conversation_id ← uuid4;
    with_local agent
      (initial_ai_greeting ← invoke_agent "Hi" conversation_id;
       in_world (print (MAIN_LUMO +:+ initial_ai_greeting));;
       chat_loop str_lower str_strip conversation_id stdin);;
    print MAIN_RULE;;
    print MAIN_ENDED.

(** The longest prefix of a list whose elements all pass [keep]. *)
Fixpoint take_while {A} (keep : A → bool) (xs : list A) : list A :=
  match xs with
  | [] => []
  | x :: xs' => if keep x then x :: take_while keep xs' else []
  end.

(** [str.lower] and [str.strip] on ASCII text, for concrete runs. *)
Definition ascii_lower_char (c : ascii) : ascii :=
  let n := nat_of_ascii c in
  if (65 <=? n)%nat && (n <=? 90)%nat then ascii_of_nat (n + 32) else c.

Fixpoint ascii_lower (s : string) : string :=
  match s with
  | EmptyString => EmptyString
  | String c s' => String (ascii_lower_char c) (ascii_lower s')
  end.

Definition ascii_is_space (c : ascii) : bool :=
  let n := nat_of_ascii c in
  ((9 <=? n)%nat && (n <=? 13)%nat) || ((28 <=? n)%nat && (n <=? 32)%nat).

Fixpoint ascii_lstrip (s : string) : string :=
  match s with
  | EmptyString => EmptyString
  | String c s' => if ascii_is_space c then ascii_lstrip s' else s
  end.

Fixpoint ascii_rstrip (s : string) : string :=
  match s with
  | EmptyString => EmptyString
  | String c s' =>
      match ascii_rstrip s' with
      | EmptyString => if ascii_is_space c then EmptyString else String c EmptyString
      | rest => String c rest
      end
  end.

Definition ascii_strip (s : string) : string := ascii_rstrip (ascii_lstrip s).

(** Unfolding the blocks of the script and the monad underneath. *)
Ltac step_script :=
  unfold run_script, script, init_conversation_id, init_current_system_prompt, init_agent,
    init_messages, prompt_editor, chat_interface, sidebar, messages_append,
    update_session, session_get, on_agent, show;
  unfold mbind, Py_bind, bind, mret, Py_ret, ret, gets, modify, in_world, uuid4, print.

(** * Properties *)

(** ** Closed forms of the agent's methods *)

Lemma history_insert_eq (a : LumoAgent) (c : string) (h : list Message) :
  history (set_memory <[c := h]> a) c = h.
Proof. unfold history, set_memory; cbn. by rewrite lookup_insert_eq. Qed.

Lemma history_insert_ne (a : LumoAgent) (c c' : string) (h : list Message) :
  c ≠ c' → history (set_memory <[c := h]> a) c' = history a c'.
Proof. intros Hne. unfold history, set_memory; cbn. by rewrite lookup_insert_ne. Qed.

Lemma set_memory_insert_twice (a : LumoAgent) (c : string) (h h' : list Message) :
  set_memory <[c := h']> (set_memory <[c := h]> a) = set_memory <[c := h']> a.
Proof. unfold set_memory; cbn. by rewrite insert_insert_eq. Qed.

Lemma final_message_snoc {B} (h : list Message) (m : Message) (quiet : B) (f : Message → B) :
  match h ++ [m] with
  | [] => quiet
  | m0 :: ms => f (List.last ms m0)
  end = f m.
Proof. destruct h as [|m0 h]; [done|]. cbn. by rewrite List.last_last. Qed.

(** The node, once the model handle is there: one request, and either the
    reply or the apology as the update. *)
Lemma call_toy_llm_eq (self : LumoAgent) (w : World) (l : ChatGoogleGenerativeAI)
    (msgs : list Message) :
  llm self = Some l →
  _call_toy_llm {[ "messages" := msgs ]} (self, w) =
    let request := SystemMessage (system_prompt self) :: msgs in
    let w' := set_sent (λ s, s ++ [request]) w in
    match provider w (length (sent w)) l request with
    | Replied m => (Ok {[ "messages" := [m] ]}, (self, w'))
    | Failed e =>
        (Ok {[ "messages" := [AIMessage LLM_ERROR_REPLY] ]},
         (self, set_stdout (λ out, out ++ ["Error during LLM invocation: " +:+ exn_str e]) w'))
    end.
Proof.
  intros Hl. unfold _call_toy_llm, mbind, Py_bind, bind, gets. cbn [fst].
  rewrite Hl. unfold dict_getitem. rewrite lookup_singleton_eq.
  unfold mret, Py_ret, ret, try_except, in_world, llm_invoke. cbn.
  destruct (provider _ _ _ _); reflexivity.
Qed.

(** One turn, in closed form. *)
Lemma invoke_agent_eq (text cid : string) (a : LumoAgent) (w : World) :
  invoke_agent text cid (a, w) =
    let w1 := set_turns (λ l, l ++ [(text, cid)]) w in
    match llm a with
    | None => (Ok AGENT_UNAVAILABLE, (a, w1))
    | Some l =>
        let h := history a cid ++ [HumanMessage text] in
        let request := SystemMessage (system_prompt a) :: h in
        let w2 := set_sent (λ s, s ++ [request]) w1 in
        match provider w (length (sent w)) l request with
        | Replied m =>
            (Ok (if isinstance_AIMessage m then content m else AGENT_QUIET),
             (set_memory <[cid := h ++ [m]]> a, w2))
        | Failed e =>
            (Ok LLM_ERROR_REPLY,
             (set_memory <[cid := h ++ [AIMessage LLM_ERROR_REPLY]]> a,
              set_stdout (λ out, out ++ ["Error during LLM invocation: " +:+ exn_str e]) w2))
        end
    end.
Proof.
  unfold invoke_agent, invoke_agent_with, mbind, Py_bind, bind, in_world, modify, gets.
  cbn [fst]. destruct (llm a) as [l|] eqn:Hl.
  - rewrite bool_decide_eq_false_2 by done.
    unfold try_except, ai_toy_app, mbind, Py_bind, bind, gets, checkpoint_put, modify.
    rewrite lookup_singleton_eq. cbn [default add_messages].
    rewrite call_toy_llm_eq with (l := l) by done.
    cbn zeta. cbn [provider sent set_turns].
    destruct (provider w _ _ _) as [m|e].
    all: rewrite !lookup_singleton_eq; cbn [default]; unfold mret, Py_ret, ret.
    all: rewrite bool_decide_eq_true_2 by (apply insert_non_empty).
    all: rewrite lookup_singleton_eq, set_memory_insert_twice.
    all: unfold add_messages; cbn [id system_prompt set_memory].
    all: by rewrite (final_message_snoc _ _ AGENT_QUIET
                       (λ x, if isinstance_AIMessage x then content x else AGENT_QUIET)).
  - rewrite bool_decide_eq_true_2 by done. reflexivity.
Qed.

Lemma update_system_prompt_eq (x : string) (a : LumoAgent) (w : World) :
  update_system_prompt x (a, w) =
    (Ok tt, (set_system_prompt x a,
             set_stdout (λ out, out ++ ["System prompt updated to: " +:+ substring 0 100 x +:+ "..."]) w)).
Proof. reflexivity. Qed.

(** ** C1 and C2: what one turn leaves in the history *)

(** C1, as the code has it: when the gateway call inside
    [invoke_agent text cid] raises, the history of [cid] grows by exactly two
    entries, the user's text and an Assistant entry holding the fixed apology;
    other conversations are untouched, and the apology is what the call
    returns. *)
Theorem failed_gateway_call_records_apology
    (cid text : string) (a : LumoAgent) (w : World) (l : ChatGoogleGenerativeAI) (e : Exn) :
  llm a = Some l →
  provider w (length (sent w)) l
    ([SystemMessage (system_prompt a)] ++ history a cid ++ [HumanMessage text]) = Failed e →
  ∃ a' w',
    invoke_agent text cid (a, w) = (Ok LLM_ERROR_REPLY, (a', w')) ∧
    history a' cid = history a cid ++ [HumanMessage text; AIMessage LLM_ERROR_REPLY] ∧
    ∀ c, c ≠ cid → history a' c = history a c.
Proof.
  intros Hl Hfail. rewrite invoke_agent_eq, Hl. cbn zeta.
  cbn [app] in Hfail. rewrite Hfail.
  eexists _, _. split; [reflexivity|]. split.
  - by rewrite history_insert_eq, <-app_assoc.
  - intros c Hc. by rewrite history_insert_ne.
Qed.

Lemma failed_gateway_call_records_apology_witness :
  ∃ a' w',
    invoke_agent "Hi" "c1" (mock_agent, mock_world (mock_failure connection_error))
      = (Ok LLM_ERROR_REPLY, (a', w')) ∧
    history a' "c1" = history mock_agent "c1" ++ [HumanMessage "Hi"; AIMessage LLM_ERROR_REPLY] ∧
    ∀ c, c ≠ "c1" → history a' c = history mock_agent c.
Proof.
  apply (failed_gateway_call_records_apology "c1" "Hi" mock_agent
           (mock_world (mock_failure connection_error)) mock_llm connection_error);
    reflexivity.
Defined.

(** The spec's second end-to-end scenario on the code: default persona,
    empty history, a gateway that raises.  The call returns the apology, but
    the history is not [[User "Hi"]]: an Assistant entry follows it. *)
Lemma failed_gateway_call_not_user_only :
  provider (mock_world (mock_failure connection_error)) 0 mock_llm
    ([SystemMessage (system_prompt mock_agent)] ++ history mock_agent "c1" ++ [HumanMessage "Hi"])
    = Failed connection_error ∧
  ∃ a' w',
    invoke_agent "Hi" "c1" (mock_agent, mock_world (mock_failure connection_error))
      = (Ok LLM_ERROR_REPLY, (a', w')) ∧
    history a' "c1" = [HumanMessage "Hi"; AIMessage LLM_ERROR_REPLY] ∧
    history a' "c1" ≠ history mock_agent "c1" ++ [HumanMessage "Hi"].
Proof.
  split; [reflexivity|].
  eexists _, _. split; [vm_compute; reflexivity|]. split; [reflexivity|].
  vm_compute. discriminate.
Qed.

(** C2: when the gateway returns the Assistant message [reply], the history
    of [cid] grows by exactly [User text; Assistant reply], in that order, and
    the call returns [reply]. *)
Theorem successful_turn_records_pair
    (cid text reply : string) (a : LumoAgent) (w : World) (l : ChatGoogleGenerativeAI) :
  llm a = Some l →
  provider w (length (sent w)) l
    ([SystemMessage (system_prompt a)] ++ history a cid ++ [HumanMessage text])
    = Replied (AIMessage reply) →
  ∃ a' w',
    invoke_agent text cid (a, w) = (Ok reply, (a', w')) ∧
    history a' cid = history a cid ++ [HumanMessage text; AIMessage reply].
Proof.
  intros Hl Hreply. rewrite invoke_agent_eq, Hl. cbn zeta.
  cbn [app] in Hreply. rewrite Hreply.
  eexists _, _. split; [reflexivity|].
  by rewrite history_insert_eq, <-app_assoc.
Qed.

Lemma successful_turn_records_pair_witness :
  ∃ a' w',
    invoke_agent "Hi" "c1"
      (mock_agent, mock_world (mock_reply (AIMessage "Hi there, friend!")))
      = (Ok "Hi there, friend!", (a', w')) ∧
    history a' "c1" = history mock_agent "c1" ++ [HumanMessage "Hi"; AIMessage "Hi there, friend!"].
Proof.
  apply (successful_turn_records_pair "c1" "Hi" "Hi there, friend!" mock_agent
           (mock_world (mock_reply (AIMessage "Hi there, friend!"))) mock_llm);
    reflexivity.
Defined.

(** ** C3, C8, C9: the persona instruction *)

Lemma last_nonempty_default {A} (ps : list A) (p d : A) :
  List.last ps p = List.last (p :: ps) d.
Proof.
  revert p d. induction ps as [|q ps IH]; intros p d; [done|].
  change (List.last (p :: q :: ps) d) with (List.last (q :: ps) d).
  by rewrite <-(IH q p), <-(IH q d).
Qed.

(** A run of persona updates keeps the model handle, the memory and the
    request log, and leaves the last value in place. *)
Lemma persona_updates_eq (ps : list string) (a : LumoAgent) (w : World) :
  ∃ a1 w1,
    for_each ps update_system_prompt (a, w) = (Ok tt, (a1, w1)) ∧
    system_prompt a1 = List.last ps (system_prompt a) ∧
    llm a1 = llm a ∧ memory a1 = memory a ∧
    sent w1 = sent w ∧ provider w1 = provider w.
Proof.
  revert a w. induction ps as [|p ps IH]; intros a w.
  - exists a, w. repeat split.
  - cbn [for_each]. unfold mbind, Py_bind, bind.
    rewrite update_system_prompt_eq.
    destruct (IH (set_system_prompt p a)
                 (set_stdout (λ out, out ++ ["System prompt updated to: " +:+ substring 0 100 p +:+ "..."]) w))
      as (a1 & w1 & Hrun & Hp & Hl & Hm & Hs & Hprov).
    exists a1, w1. rewrite Hrun. split; [done|].
    cbn [set_system_prompt system_prompt llm memory set_stdout sent provider] in *.
    split; [|by repeat split].
    rewrite Hp. apply last_nonempty_default.
Qed.

(** C3: the message list dispatched by [invoke_agent text cid] is
    [[System p] ++ history cid ++ [User text]] with [p] the persona
    instruction held at the time of the call; after any run [ps] of persona
    updates, that is the last value set. *)
Theorem outbound_list_uses_current_persona
    (ps : list string) (cid text : string) (a : LumoAgent) (w : World)
    (l : ChatGoogleGenerativeAI) :
  llm a = Some l →
  ∃ a1 w1 r a2 w2,
    for_each ps update_system_prompt (a, w) = (Ok tt, (a1, w1)) ∧
    system_prompt a1 = List.last ps (system_prompt a) ∧
    invoke_agent text cid (a1, w1) = (r, (a2, w2)) ∧
    sent w2 = sent w1 ++
      [[SystemMessage (system_prompt a1)] ++ history a1 cid ++ [HumanMessage text]].
Proof.
  intros Hl.
  destruct (persona_updates_eq ps a w) as (a1 & w1 & Hrun & Hp & Hl1 & _).
  exists a1, w1. rewrite invoke_agent_eq, Hl1, Hl. cbn zeta.
  destruct (provider w1 _ _ _); eexists _, _, _; by repeat split.
Qed.

Lemma outbound_list_uses_current_persona_witness :
  ∃ a1 w1 r a2 w2,
    for_each ["Be a pirate."; "Be a robot."] update_system_prompt
      (mock_agent, mock_world (mock_reply (AIMessage "Beep!"))) = (Ok tt, (a1, w1)) ∧
    system_prompt a1 = List.last ["Be a pirate."; "Be a robot."] (system_prompt mock_agent) ∧
    invoke_agent "Hi" "c1" (a1, w1) = (r, (a2, w2)) ∧
    sent w2 = sent w1 ++
      [[SystemMessage (system_prompt a1)] ++ history a1 "c1" ++ [HumanMessage "Hi"]].
Proof.
  apply (outbound_list_uses_current_persona ["Be a pirate."; "Be a robot."] "c1" "Hi"
           mock_agent (mock_world (mock_reply (AIMessage "Beep!"))) mock_llm).
  reflexivity.
Defined.

(** C8: [update_system_prompt x] leaves every stored history, the model
    handle and the request log as they were, and the next [invoke_agent]
    dispatches [x] as its System entry. *)
Theorem persona_update_keeps_history (x : string) (a : LumoAgent) (w : World) :
  ∃ a' w',
    update_system_prompt x (a, w) = (Ok tt, (a', w')) ∧
    memory a' = memory a ∧
    (∀ c, history a' c = history a c) ∧
    llm a' = llm a ∧
    sent w' = sent w ∧
    ∀ cid text l, llm a = Some l →
      sent (invoke_agent text cid (a', w')).2.2 =
        sent w ++ [[SystemMessage x] ++ history a cid ++ [HumanMessage text]].
Proof.
  eexists _, _. split; [apply update_system_prompt_eq|].
  repeat split.
  intros cid text l Hl. rewrite invoke_agent_eq.
  cbn [llm set_system_prompt]. rewrite Hl. cbn zeta.
  by destruct (provider _ _ _ _).
Qed.

Lemma persona_update_keeps_history_witness :
  ∃ a' w',
    update_system_prompt "Be a robot."
      (mock_agent, mock_world (mock_reply (AIMessage "Beep!"))) = (Ok tt, (a', w')) ∧
    sent (invoke_agent "Hi" "c1" (a', w')).2.2 =
      [[SystemMessage "Be a robot."; HumanMessage "Hi"]].
Proof.
  destruct (persona_update_keeps_history "Be a robot." mock_agent
              (mock_world (mock_reply (AIMessage "Beep!"))))
    as (a' & w' & Hrun & _ & _ & _ & _ & Hnext).
  exists a', w'. split; [exact Hrun|].
  exact (Hnext "c1" "Hi" mock_llm eq_refl).
Defined.

(** C9: reading [system_prompt] right after [update_system_prompt x] gives
    [x] itself, for every string [x]; the call never raises and rejects
    nothing. *)
Theorem persona_set_then_get (x : string) (a : LumoAgent) (w : World) :
  ∃ a' w',
    update_system_prompt x (a, w) = (Ok tt, (a', w')) ∧
    system_prompt a' = x.
Proof. eexists _, _. split; [apply update_system_prompt_eq|reflexivity]. Qed.

(** ** C4: the stored history over any sequence of calls *)

(** One call appends to each history a (possibly empty) list of messages,
    none of them a System message, provided the gateway never answers with
    one. *)
Lemma perform_appends (c : Call) (a : LumoAgent) (w : World) :
  (∀ n l msgs m, provider w n l msgs = Replied m → isinstance_SystemMessage m = false) →
  ∃ a' w',
    perform c (a, w) = (Ok tt, (a', w')) ∧
    provider w' = provider w ∧
    ∀ cid, ∃ new,
      history a' cid = history a cid ++ new ∧
      Forall (λ m, isinstance_SystemMessage m = false) new.
Proof.
  intros Hgw. destruct c as [text conv|p]; cbn [perform].
  - unfold mbind, Py_bind, bind. rewrite invoke_agent_eq. cbn zeta.
    destruct (llm a) as [l|].
    + destruct (provider w _ _ _) as [m|e] eqn:Hout.
      * eexists _, _. split; [reflexivity|]. split; [reflexivity|].
        intros cid. destruct (decide (conv = cid)) as [->|Hne].
        -- exists [HumanMessage text; m]. rewrite history_insert_eq, <-app_assoc.
           split; [done|]. repeat constructor. by eapply Hgw.
        -- exists []. rewrite history_insert_ne, app_nil_r by done. by split.
      * eexists _, _. split; [reflexivity|]. split; [reflexivity|].
        intros cid. destruct (decide (conv = cid)) as [->|Hne].
        -- exists [HumanMessage text; AIMessage LLM_ERROR_REPLY].
           rewrite history_insert_eq, <-app_assoc. split; [done|]. by repeat constructor.
        -- exists []. rewrite history_insert_ne, app_nil_r by done. by split.
    + eexists _, _. split; [reflexivity|]. split; [reflexivity|].
      intros cid. exists []. by rewrite app_nil_r.
  - rewrite update_system_prompt_eq. eexists _, _.
    split; [reflexivity|]. split; [reflexivity|].
    intros cid. exists []. by rewrite app_nil_r.
Qed.

(** C4: over every sequence of calls on an agent (turns that succeed, turns
    that fail, persona updates), no stored history ever holds a System
    message, and every history the agent had is kept as a prefix of the one
    it has afterwards.  The gateway is taken to answer, when it answers, with
    a message that is not a System message. *)
Theorem history_system_free_and_append_only (calls : list Call) (a : LumoAgent) (w : World) :
  (∀ n l msgs m, provider w n l msgs = Replied m → isinstance_SystemMessage m = false) →
  (∀ c m, m ∈ history a c → isinstance_SystemMessage m = false) →
  ∃ a' w',
    for_each calls perform (a, w) = (Ok tt, (a', w')) ∧
    (∀ c m, m ∈ history a' c → isinstance_SystemMessage m = false) ∧
    (∀ c, history a c `prefix_of` history a' c).
Proof.
  revert a w. induction calls as [|c calls IH]; intros a w Hgw Hinv.
  - exists a, w. by repeat split.
  - destruct (perform_appends c a w Hgw) as (a1 & w1 & Hstep & Hprov & Happ).
    destruct (IH a1 w1) as (a2 & w2 & Hrun & Hinv2 & Hpre).
    + by rewrite Hprov.
    + intros cid m. destruct (Happ cid) as (new & -> & Hnew).
      rewrite elem_of_app. intros [Hin|Hin]; [by eapply Hinv|].
      by eapply Forall_forall in Hnew.
    + exists a2, w2. cbn [for_each]. unfold mbind, Py_bind, bind.
      rewrite Hstep, Hrun. split; [done|]. split; [done|].
      intros cid. etrans; [|apply Hpre].
      destruct (Happ cid) as (new & -> & _). by apply prefix_app_r.
Qed.

Lemma history_system_free_and_append_only_witness :
  ∃ a' w',
    for_each [Submit "Hi" "c1"; ApplyPersona "Be a robot."; Submit "Again" "c1"] perform
      (mock_agent, mock_world (mock_failure_after_probe connection_error))
      = (Ok tt, (a', w')) ∧
    (∀ c m, m ∈ history a' c → isinstance_SystemMessage m = false) ∧
    (∀ c, history mock_agent c `prefix_of` history a' c).
Proof.
  apply (history_system_free_and_append_only
           [Submit "Hi" "c1"; ApplyPersona "Be a robot."; Submit "Again" "c1"]
           mock_agent (mock_world (mock_failure_after_probe connection_error))).
  - intros n l msgs m. cbn. unfold mock_failure_after_probe.
    destruct (bool_decide (n = 0)); intros [= <-]; reflexivity.
  - intros c m. unfold history. cbn. rewrite lookup_empty. cbn. by intros ?%elem_of_nil.
Defined.

(** ** C5 and C10: what the caller sees when a turn does not succeed *)

(** C5, as the code has it: whenever the gateway call of a turn raises, the
    text returned is the one apology [LLM_ERROR_REPLY], whatever the class
    and message of the exception. *)
Theorem gateway_exceptions_share_one_apology
    (cid text : string) (a : LumoAgent) (w : World) (l : ChatGoogleGenerativeAI) (e : Exn) :
  llm a = Some l →
  provider w (length (sent w)) l
    ([SystemMessage (system_prompt a)] ++ history a cid ++ [HumanMessage text]) = Failed e →
  (invoke_agent text cid (a, w)).1 = Ok LLM_ERROR_REPLY.
Proof.
  intros Hl Hfail. rewrite invoke_agent_eq, Hl. cbn zeta.
  cbn [app] in Hfail. by rewrite Hfail.
Qed.

Lemma gateway_exceptions_share_one_apology_witness :
  (invoke_agent "Hi" "c1" (mock_agent, mock_world (mock_failure rejection))).1
    = Ok LLM_ERROR_REPLY.
Proof.
  apply (gateway_exceptions_share_one_apology "c1" "Hi" mock_agent
           (mock_world (mock_failure rejection)) mock_llm rejection);
    reflexivity.
Defined.

(** Three turns that fail, at three places: the gateway raises, the agent
    has no model handle, the gateway answers with a message that is not an
    Assistant message.  The caller sees three different texts, so no single
    apology covers every failing turn. *)
Lemma failing_turns_have_no_common_text :
  ¬ ∃ apology : string,
      (invoke_agent "Hi" "c1"
         (mock_agent, mock_world (mock_failure connection_error))).1 = Ok apology ∧
      (invoke_agent "Hi" "c1"
         (mock_agent_without_llm, mock_world (mock_failure connection_error))).1 = Ok apology ∧
      (invoke_agent "Hi" "c1"
         (mock_agent, mock_world (mock_reply (HumanMessage "Hi")))).1 = Ok apology.
Proof.
  intros (apology & H1 & H2 & _).
  vm_compute in H1. vm_compute in H2. congruence.
Qed.

Lemma last_cons_default (m : Message) (ms : list Message) :
  last (m :: ms) = Some (List.last ms m).
Proof.
  revert m. induction ms as [|m' ms IH]; intros m; [reflexivity|].
  change (last (m :: m' :: ms)) with (last (m' :: ms)).
  by rewrite IH, (last_nonempty_default ms m' m).
Qed.

(** C10: [invoke_agent] never raises, for every conversation id, every
    input and every behaviour of the graph it calls: it returns
    [AGENT_UNAVAILABLE] when the agent has no model handle, [AGENT_WOBBLY]
    when the graph invocation raises, the content of the final message when
    that is an Assistant message, and [AGENT_QUIET] when the final message is
    missing or of another class. *)
Theorem invoke_agent_always_returns_text
    (graph : gmap string (list Message) → string →
             Py (LumoAgent * World) (option (gmap string (list Message))))
    (user_input conversation_id : string) (a : LumoAgent) (w : World) :
  ∃ text st',
    invoke_agent_with graph user_input conversation_id (a, w) = (Ok text, st') ∧
    text =
      match llm a with
      | None => AGENT_UNAVAILABLE
      | Some _ =>
          match (graph {[ "messages" := [HumanMessage user_input] ]} conversation_id
                   (a, set_turns (λ l, l ++ [(user_input, conversation_id)]) w)).1 with
          | Raise _ => AGENT_WOBBLY
          | Ok response_state =>
              match final_message response_state with
              | Some (AIMessage reply) => reply
              | _ => AGENT_QUIET
              end
          end
      end.
Proof.
  unfold invoke_agent_with, mbind, Py_bind, bind, in_world, modify, gets.
  cbn [fst]. destruct (llm a) as [l|].
  - rewrite bool_decide_eq_false_2 by done. unfold try_except.
    destruct (graph _ _ _) as [[response_state|e] st1]; cbn [fst].
    + eexists _, _. split; [reflexivity|].
      destruct response_state as [d|]; [|done]. cbn [final_message mbind option_bind].
      case_bool_decide as Hd.
      * destruct (d !! "messages") as [[|m ms]|]; [done| |done].
        cbn [mbind option_bind]. rewrite last_cons_default.
        by destruct (List.last ms m).
      * subst d. by rewrite lookup_empty.
    + destruct st1 as [a1 w1]. eexists _, _. split; reflexivity.
  - rewrite bool_decide_eq_true_2 by done. eexists _, _. split; reflexivity.
Qed.

(** ** C6 and C7: start-up and reset in the Streamlit script *)

(** [_initialize_llm] in closed form: it never raises, and yields a handle
    only when the secret is there and the probe request is answered. *)
Lemma initialize_llm_eq (m : string) (w : World) :
  _initialize_llm m w =
    let fall_back (reason : string) (w0 : World) : Result (option ChatGoogleGenerativeAI) * World :=
      (Ok None,
       set_stdout (λ out, out ++ ["Please ensure your Google Gemini API Key is properly configured in Streamlit secrets."])
         (set_stdout (λ out, out ++ ["Error initializing Google AI LLM: " +:+ reason]) w0)) in
    match secrets w !! "gemini" with
    | None => fall_back "Gemini API key not found in Streamlit secrets" w
    | Some gemini =>
        match gemini !! "api_key" with
        | None => fall_back "'api_key'" w
        | Some api_key =>
            let l := mkChat m (7 # 10) api_key in
            let w1 := set_sent (λ s, s ++ [[HumanMessage "Hello!"]]) w in
            match provider w (length (sent w)) l [HumanMessage "Hello!"] with
            | Replied _ => (Ok (Some l), set_stdout (λ out, out ++ ["LLM initialized successfully."]) w1)
            | Failed e => fall_back (exn_str e) w1
            end
        end
    end.
Proof.
  unfold _initialize_llm, try_except, mbind, Py_bind, bind, gets, dict_getitem.
  destruct (secrets w !! "gemini") as [gemini|]; [|reflexivity].
  rewrite bool_decide_eq_false_2 by done.
  unfold mret, Py_ret, ret, raise, llm_invoke.
  destruct (gemini !! "api_key") as [api_key|]; [|reflexivity].
  cbn zeta. destruct (provider w _ _ _); reflexivity.
Qed.

(** Without a model handle, calls on the agent neither reach the gateway
    nor touch the memory. *)
Lemma agent_without_llm_is_inert (calls : list Call) (a : LumoAgent) (w : World) :
  llm a = None →
  ∃ a' w',
    for_each calls perform (a, w) = (Ok tt, (a', w')) ∧
    llm a' = None ∧ memory a' = memory a ∧ sent w' = sent w.
Proof.
  revert a w. induction calls as [|c calls IH]; intros a w Hl.
  - exists a, w. by repeat split.
  - cbn [for_each]. unfold mbind, Py_bind, bind.
    destruct c as [text cid|p]; cbn [perform].
    + unfold mbind, Py_bind, bind, mret, Py_ret, ret.
      rewrite invoke_agent_eq, Hl. cbn beta iota zeta.
      destruct (IH a (set_turns (λ l, l ++ [(text, cid)]) w) Hl) as (a' & w' & -> & ? & ? & ?).
      by exists a', w'.
    + rewrite update_system_prompt_eq. cbn beta iota zeta.
      destruct (IH (set_system_prompt p a)
                  (set_stdout (λ out, out ++ ["System prompt updated to: " +:+ substring 0 100 p +:+ "..."]) w) Hl)
        as (a' & w' & -> & ? & ? & ?).
      by exists a', w'.
Qed.

(** The first run of a session whose initialization fails. *)
Lemma startup_failure_run (ev : Interaction) (w : World) :
  (_initialize_llm MODEL_NAME w).1 = Ok None →
  ∃ ss' w' a,
    run_script ev new_session w = (Ok Stopped, (mkRun ss' [st_error FATAL_ERROR], w')) ∧
    turns w' = turns w ∧
    messages ss' = None ∧
    agent ss' = Some a ∧ llm a = None ∧ memory a = ∅.
Proof.
  intros Hfail. rewrite initialize_llm_eq in Hfail.
  unfold run_script, script, init_conversation_id, init_current_system_prompt, init_agent,
    LumoAgent__init__, update_session, session_get, show, new_session.
  unfold mbind, Py_bind, bind, mret, Py_ret, ret, gets, modify, in_world, uuid4, print.
  cbn -[DEFAULT_AI_TOY_SYSTEM_PROMPT FATAL_ERROR].
  rewrite initialize_llm_eq. cbn -[DEFAULT_AI_TOY_SYSTEM_PROMPT FATAL_ERROR].
  cbn zeta in Hfail.
  destruct (secrets w !! "gemini") as [g|];
    [destruct (g !! "api_key") as [k|];
       [destruct (provider w _ _ _); [discriminate Hfail|] |] |].
  all: eexists _, _, _; repeat split.
Qed.

(** A run that is not a reset keeps an agent without model handle as it
    is, whatever else the run does. *)
Lemma script_keeps_inert_agent (ev : Interaction) (ss : SessionState) (w : World) (a : LumoAgent) :
  ev ≠ ResetButton →
  agent ss = Some a → llm a = None →
  ∃ res r' w' a',
    run_script ev ss w = (res, (r', w')) ∧
    agent (session_state r') = Some a' ∧ llm a' = None ∧ memory a' = memory a ∧
    sent w' = sent w.
Proof.
  intros Hev Ha Hl. destruct ss as [cid p oa msgs]. cbn in Ha. subst oa.
  destruct a as [sp mn ol mem]. cbn in Hl. subst ol.
  step_script.
  destruct cid as [cid|], p as [p|], msgs as [msgs|], ev as [|edited|prompt|]; try done.
  all: cbn -[DEFAULT_AI_TOY_SYSTEM_PROMPT].
  all: try (eexists _, _, _, _; by repeat split).
  all: rewrite ?update_system_prompt_eq, ?invoke_agent_eq; cbn -[DEFAULT_AI_TOY_SYSTEM_PROMPT].
  all: try (eexists _, _, _, _; by repeat split).
  all: case_bool_decide; cbn -[DEFAULT_AI_TOY_SYSTEM_PROMPT].
  all: try (eexists _, _, _, _; by repeat split).
  all: rewrite ?update_system_prompt_eq, ?invoke_agent_eq; cbn -[DEFAULT_AI_TOY_SYSTEM_PROMPT].
  all: try (eexists _, _, _, _; by repeat split).
Qed.

Lemma session_keeps_inert_agent (evs : list Interaction) (ss : SessionState) (w : World)
    (a : LumoAgent) :
  ResetButton ∉ evs →
  agent ss = Some a → llm a = None →
  ∃ a',
    agent (run_session evs ss w).1 = Some a' ∧ llm a' = None ∧ memory a' = memory a ∧
    sent (run_session evs ss w).2 = sent w.
Proof.
  revert ss w a. induction evs as [|ev evs IH]; intros ss w a Hevs Ha Hl.
  - exists a. by repeat split.
  - apply not_elem_of_cons in Hevs as [Hev Hevs].
    destruct (script_keeps_inert_agent ev ss w a) as (res & r' & w' & a' & Hrun & Ha' & Hl' & Hm & Hs);
      [done..|].
    cbn [run_session]. rewrite Hrun.
    destruct (IH (session_state r') w' a' Hevs Ha' Hl') as (a2 & ? & ? & Hm2 & Hs2).
    exists a2. rewrite Hm2, Hm, Hs2, Hs. by repeat split.
Qed.

(** C7: when [_initialize_llm] fails at start-up, the first run of the
    script ends in [st.stop()] with the fatal error as the only element on
    the page; [invoke_agent] is not entered during it and the page's message
    list is not even created.  The agent left in the session has no model
    handle and an empty memory, and stays so: no call on it, and no later run
    of the script short of a reset, sends a request or writes a history. *)
Theorem startup_failure_halts_session (ev : Interaction) (w : World) :
  (_initialize_llm MODEL_NAME w).1 = Ok None →
  ∃ ss' w' a,
    run_script ev new_session w = (Ok Stopped, (mkRun ss' [st_error FATAL_ERROR], w')) ∧
    turns w' = turns w ∧
    messages ss' = None ∧
    agent ss' = Some a ∧ llm a = None ∧ memory a = ∅ ∧
    (∀ calls w0, ∃ a1 w1,
        for_each calls perform (a, w0) = (Ok tt, (a1, w1)) ∧
        memory a1 = ∅ ∧ sent w1 = sent w0) ∧
    (∀ evs, ResetButton ∉ evs →
        ∃ a2, agent (run_session evs ss' w').1 = Some a2 ∧ llm a2 = None ∧
              memory a2 = ∅ ∧ sent (run_session evs ss' w').2 = sent w').
Proof.
  intros Hfail.
  destruct (startup_failure_run ev w Hfail) as (ss' & w' & a & Hrun & Ht & Hmsgs & Ha & Hl & Hm).
  exists ss', w', a. repeat (split; [done|]). split.
  - intros calls w0.
    destruct (agent_without_llm_is_inert calls a w0 Hl) as (a1 & w1 & ? & ? & Hm1 & ?).
    exists a1, w1. by rewrite Hm1, Hm.
  - intros evs Hevs.
    destruct (session_keeps_inert_agent evs ss' w' a Hevs Ha Hl) as (a2 & ? & ? & Hm2 & ?).
    exists a2. by rewrite Hm2, Hm.
Qed.

Lemma startup_failure_halts_session_witness :
  ∃ ss' w' a,
    run_script NoInteraction new_session mock_world_without_secrets
      = (Ok Stopped, (mkRun ss' [st_error FATAL_ERROR], w')) ∧
    turns w' = turns mock_world_without_secrets ∧
    messages ss' = None ∧
    agent ss' = Some a ∧ llm a = None ∧ memory a = ∅ ∧
    (∃ a1 w1,
        for_each [Submit "Hi" "c1"] perform (a, w') = (Ok tt, (a1, w1)) ∧
        memory a1 = ∅ ∧ sent w1 = sent w') ∧
    (∃ a2, agent (run_session [NoInteraction; ChatInput "Hi"] ss' w').1 = Some a2 ∧
           llm a2 = None ∧ memory a2 = ∅ ∧
           sent (run_session [NoInteraction; ChatInput "Hi"] ss' w').2 = sent w').
Proof.
  destruct (startup_failure_halts_session NoInteraction mock_world_without_secrets eq_refl)
    as (ss' & w' & a & Hrun & Ht & Hmsgs & Ha & Hl & Hm & Hcalls & Hsession).
  exists ss', w', a. do 6 (split; [assumption|]). split.
  - apply Hcalls.
  - apply Hsession. by intros [|[|?%elem_of_nil]%elem_of_cons]%elem_of_cons.
Defined.

(** The session does not end with the halted run.  Here the start-up probe
    fails and every later request is answered.  The first run stops; the
    agent without model handle is in the session by then, so the next run
    goes past the check, a chat message typed after it enters
    [invoke_agent], and a reset in the same session builds a working agent
    and writes a history. *)
Lemma startup_failure_session_goes_on :
  let w := mock_world (mock_failure_at_first_request connection_error (AIMessage "Beep!")) in
  (_initialize_llm MODEL_NAME w).1 = Ok None ∧
  ∃ r1 w1,
    run_script NoInteraction new_session w = (Ok Stopped, (r1, w1)) ∧
    turns w1 = [] ∧
    turns (run_session [NoInteraction; ChatInput "Hi"] (session_state r1) w1).2
      = [("Hi", "0")] ∧
    messages (run_session [NoInteraction; ChatInput "Hi"] (session_state r1) w1).1
      = Some [("user", "Hi"); ("assistant", AGENT_UNAVAILABLE)] ∧
    ∃ a,
      agent (run_session [NoInteraction; ResetButton] (session_state r1) w1).1 = Some a ∧
      history a "1" = [HumanMessage "Hello!"; AIMessage "Beep!"].
Proof.
  split; [reflexivity|].
  eexists _, _. split; [vm_compute; reflexivity|].
  split; [reflexivity|]. split; [vm_compute; reflexivity|].
  split; [vm_compute; reflexivity|].
  eexists. split; vm_compute; reflexivity.
Qed.

(** A source of identifiers that never repeats hands out a fresh one. *)
Lemma uuid4_is_fresh (w : World) :
  Inj (=) (=) (uuid_source w) → uuid_source w (uuid_drawn w) ∉ issued w.
Proof.
  intros Hinj. unfold issued. rewrite list_elem_of_fmap.
  intros (i & Heq & Hin). apply Hinj in Heq. subst i.
  apply elem_of_seq in Hin. lia.
Qed.

(** C6, as the code has it: the reset handler draws the next identifier of
    [uuid4] as conversation id, which was not issued before whenever the
    source does not repeat (the handler itself checks nothing), and builds a
    new agent with an empty memory, so the history of the new id is empty
    before the greeting.  Then, for every reset: without a model handle no
    greeting turn is made and the history stays empty; with one, the history
    becomes the greeting trigger followed by one message, the gateway's
    reply, or the apology as an Assistant message when the gateway raised. *)
Theorem reset_conversation_outcome
    (ss : SessionState) (pg : list Element) (w : World) (p : string) :
  current_system_prompt ss = Some p →
  ∃ r1 w1 a r2 w2 a2,
    let cid := uuid_source w (uuid_drawn w) in
    reset_state (mkRun ss pg, w) = (Ok tt, (r1, w1)) ∧
    conversation_id (session_state r1) = Some cid ∧
    issued w1 = issued w ++ [cid] ∧
    (Inj (=) (=) (uuid_source w) → cid ∉ issued w) ∧
    agent (session_state r1) = Some a ∧
    system_prompt a = p ∧ memory a = ∅ ∧ history a cid = [] ∧
    reset_greeting (r1, w1) = (Ok tt, (r2, w2)) ∧
    conversation_id (session_state r2) = Some cid ∧
    agent (session_state r2) = Some a2 ∧
    match llm a with
    | None =>
        history a2 cid = [] ∧ messages (session_state r2) = Some [] ∧ sent w2 = sent w1
    | Some l =>
        match provider w1 (length (sent w1)) l
                ([SystemMessage p] ++ history a cid ++ [HumanMessage GREETING_TRIGGER]) with
        | Replied m =>
            history a2 cid = [HumanMessage GREETING_TRIGGER; m] ∧
            messages (session_state r2) =
              Some [("assistant", if isinstance_AIMessage m then content m else AGENT_QUIET)]
        | Failed _ =>
            history a2 cid = [HumanMessage GREETING_TRIGGER; AIMessage LLM_ERROR_REPLY] ∧
            messages (session_state r2) = Some [("assistant", LLM_ERROR_REPLY)]
        end
    end.
Proof.
  intros Hp. destruct ss as [cid0 op oa msgs]. cbn in Hp. subst op.
  assert (∀ w', uuid_source w' = uuid_source w → uuid_drawn w' = S (uuid_drawn w) →
                issued w' = issued w ++ [uuid_source w (uuid_drawn w)]) as Hissued.
  { intros w' Hsrc Hdrawn. unfold issued. by rewrite Hsrc, Hdrawn, seq_S, fmap_app. }
  destruct (reset_state _) as [res1 [r1 w1]] eqn:H1.
  unfold reset_state, LumoAgent__init__, update_session, session_get in H1.
  unfold mbind, Py_bind, bind, mret, Py_ret, ret, gets, modify, in_world, uuid4 in H1.
  cbn in H1. rewrite initialize_llm_eq in H1. cbn in H1.
  destruct (secrets w !! "gemini") as [g|];
    [destruct (g !! "api_key") as [k|]; [destruct (provider w _ _ _) as [m0|e0]|]|].
  all: injection H1 as <- Hr Hw.
  all: destruct (reset_greeting (r1, w1)) as [res2 [r2 w2]] eqn:H2; subst r1 w1.
  all: pose proof H2 as H2'.
  all: unfold reset_greeting, update_session, session_get, on_agent, messages_append, show in H2.
  all: unfold mbind, Py_bind, bind, mret, Py_ret, ret, gets, modify, in_world in H2.
  all: cbn -[invoke_agent] in H2; rewrite ?invoke_agent_eq in H2; cbn in H2.
  1: destruct (provider w _ _ _) as [m|e] eqn:Hout in H2.
  all: injection H2 as <- <- <-.
  all: eexists _, _, _, _, _, _; split; [reflexivity|].
  all: split; [reflexivity|]; split; [by apply Hissued|].
  all: split; [apply uuid4_is_fresh|].
  all: do 4 (split; [reflexivity|]).
  all: split; [exact H2'|].
  all: do 2 (split; [reflexivity|]).
  all: cbn; rewrite ?Hout; unfold history; cbn [memory set_memory].
  all: rewrite ?lookup_insert_eq, ?lookup_empty; by repeat split.
Qed.

Lemma reset_conversation_outcome_witness :
  let ss := mkSession (Some "0") (Some "Be a robot.") None (Some []) in
  let w := set_uuid_drawn (λ _, 1) (mock_world (mock_reply (AIMessage "Beep!"))) in
  ∃ r1 w1 a r2 w2 a2,
    reset_state (mkRun ss [], w) = (Ok tt, (r1, w1)) ∧
    conversation_id (session_state r1) = Some "1" ∧
    ("1" ∉ issued w) ∧
    agent (session_state r1) = Some a ∧ history a "1" = [] ∧
    reset_greeting (r1, w1) = (Ok tt, (r2, w2)) ∧
    agent (session_state r2) = Some a2 ∧
    history a2 "1" = [HumanMessage GREETING_TRIGGER; AIMessage "Beep!"].
Proof.
  intros ss w.
  destruct (reset_conversation_outcome ss [] w "Be a robot." eq_refl)
    as (r1 & w1 & a & r2 & w2 & a2 & Hrun & Hcid & _ & Hfresh & Ha & _ & _ & Hempty
        & Hgreet & _ & Ha2 & Hcases).
  assert (llm a = Some mock_llm ∧ sent w1 = [[HumanMessage "Hello!"]]
          ∧ provider w1 = mock_reply (AIMessage "Beep!")) as (Hl & Hs & Hprov).
  { vm_compute in Hrun. injection Hrun as <- <-. cbn in Ha. injection Ha as <-.
    by repeat split. }
  rewrite Hl, Hprov in Hcases. cbn in Hcases. destruct Hcases as [Hh _].
  exists r1, w1, a, r2, w2, a2. repeat split; try assumption.
  apply Hfresh. exact pretty_nat_inj.
Defined.

(** Two resets the claim does not cover.  With a source of identifiers
    that repeats, the handler takes as new conversation id the one the
    session already had.  And when the gateway raises on the greeting, the
    Assistant entry after the reset is the apology, not a reply of the
    model. *)
Lemma reset_can_reissue_id_and_store_apology :
  (issued mock_world_with_repeating_uuid = ["same-id"] ∧
   ∃ r1 w1,
     reset_state
       (mkRun (mkSession (Some "same-id") (Some "Be a robot.") (Some mock_agent) (Some [])) [],
        mock_world_with_repeating_uuid) = (Ok tt, (r1, w1)) ∧
     conversation_id (session_state r1) = Some "same-id" ∧
     "same-id" ∈ issued mock_world_with_repeating_uuid) ∧
  ∃ r2 w2 a2,
    (reset_state;; reset_greeting)
      (mkRun (mkSession (Some "0") (Some "Be a robot.") (Some mock_agent) (Some [])) [],
       set_uuid_drawn (λ _, 1) (mock_world (mock_failure_after_probe connection_error)))
      = (Ok tt, (r2, w2)) ∧
    agent (session_state r2) = Some a2 ∧
    history a2 "1" = [HumanMessage GREETING_TRIGGER; AIMessage LLM_ERROR_REPLY].
Proof.
  split.
  - split; [reflexivity|]. eexists _, _. split; [vm_compute; reflexivity|].
    split; [reflexivity|]. vm_compute. left.
  - eexists _, _, _. split; [vm_compute; reflexivity|]. split; reflexivity.
Qed.

(** * Further properties of the agent *)

(** ** [_initialize_llm] and the constructor *)

(** Without the [gemini] section or its [api_key], [_initialize_llm]
    returns [None] without raising and without contacting the gateway. *)
Theorem initialize_llm_without_key (m : string) (w : World) :
  (secrets w !! "gemini" = None ∨
   ∃ g, secrets w !! "gemini" = Some g ∧ g !! "api_key" = None) →
  ∃ w', _initialize_llm m w = (Ok None, w') ∧ sent w' = sent w ∧
        length (stdout w') = length (stdout w) + 2.
Proof.
  intros Hkey. rewrite initialize_llm_eq. cbn zeta.
  destruct Hkey as [->|(g & -> & ->)]; eexists; (split; [reflexivity|]);
    cbn; by rewrite !length_app, <-Nat.add_assoc.
Qed.

Lemma initialize_llm_without_key_witness :
  ∃ w', _initialize_llm MODEL_NAME mock_world_without_secrets = (Ok None, w') ∧
        sent w' = sent mock_world_without_secrets ∧
        length (stdout w') = length (stdout mock_world_without_secrets) + 2.
Proof.
  apply (initialize_llm_without_key MODEL_NAME mock_world_without_secrets).
  left. reflexivity.
Defined.

(** With a key, [_initialize_llm] sends exactly one request, the probe
    [[HumanMessage "Hello!"]], through a handle made of the model name, the
    temperature 0.7 and that key; it returns the handle when the probe is
    answered (by any message) and [None] when it raises. *)
Theorem initialize_llm_probes_once (m k : string) (g : gmap string string) (w : World) :
  secrets w !! "gemini" = Some g →
  g !! "api_key" = Some k →
  ∃ r w',
    _initialize_llm m w = (Ok r, w') ∧
    sent w' = sent w ++ [[HumanMessage "Hello!"]] ∧
    r = match provider w (length (sent w)) (mkChat m (7 # 10) k) [HumanMessage "Hello!"] with
        | Replied _ => Some (mkChat m (7 # 10) k)
        | Failed _ => None
        end.
Proof.
  intros Hg Hk. rewrite initialize_llm_eq, Hg, Hk. cbn zeta.
  destruct (provider w _ _ _); eexists _, _; by repeat split.
Qed.

Lemma initialize_llm_probes_once_witness :
  ∃ r w',
    _initialize_llm MODEL_NAME (mock_world (mock_failure connection_error)) = (Ok r, w') ∧
    sent w' = [[HumanMessage "Hello!"]] ∧
    r = None.
Proof.
  apply (initialize_llm_probes_once MODEL_NAME "test-key" {[ "api_key" := "test-key" ]}
           (mock_world (mock_failure connection_error))); reflexivity.
Defined.

(** A newly constructed agent whose initialization succeeded holds the
    given prompt and no history at all, and its first turn dispatches exactly
    [[System prompt; User text]]. *)
Theorem new_agent_first_turn (p m : string) (l : ChatGoogleGenerativeAI) (w : World) :
  (_initialize_llm m w).1 = Ok (Some l) →
  ∃ a w1,
    LumoAgent__init__ p m w = (Ok a, w1) ∧
    system_prompt a = p ∧ llm a = Some l ∧ memory a = ∅ ∧
    ∀ text cid,
      sent (invoke_agent text cid (a, w1)).2.2 =
        sent w1 ++ [[SystemMessage p; HumanMessage text]].
Proof.
  intros Hinit. unfold LumoAgent__init__, mbind, Py_bind, bind, mret, Py_ret, ret.
  destruct (_initialize_llm m w) as [[r|e] w1]; cbn in Hinit; [|discriminate].
  injection Hinit as ->. eexists _, _. split; [reflexivity|]. repeat split.
  intros text cid. rewrite invoke_agent_eq. cbn [llm]. cbn zeta.
  unfold history. cbn [memory system_prompt]. rewrite lookup_empty.
  by destruct (provider _ _ _ _).
Qed.

Lemma new_agent_first_turn_witness :
  ∃ a w1,
    LumoAgent__init__ "Be a robot." MODEL_NAME (mock_world (mock_reply (AIMessage "Beep!")))
      = (Ok a, w1) ∧
    system_prompt a = "Be a robot." ∧ llm a = Some mock_llm ∧ memory a = ∅ ∧
    ∀ text cid,
      sent (invoke_agent text cid (a, w1)).2.2 =
        sent w1 ++ [[SystemMessage "Be a robot."; HumanMessage text]].
Proof.
  apply (new_agent_first_turn "Be a robot." MODEL_NAME mock_llm
           (mock_world (mock_reply (AIMessage "Beep!")))).
  reflexivity.
Defined.

(** ** One call of [invoke_agent] *)

(** A turn on one conversation leaves the persona, the model handle and
    the stored history of every other conversation as they were, and notes
    itself once in the call log. *)
Theorem invoke_agent_frame (text cid : string) (a : LumoAgent) (w : World) :
  system_prompt (invoke_agent text cid (a, w)).2.1 = system_prompt a ∧
  llm (invoke_agent text cid (a, w)).2.1 = llm a ∧
  turns (invoke_agent text cid (a, w)).2.2 = turns w ++ [(text, cid)] ∧
  ∀ c, c ≠ cid → memory (invoke_agent text cid (a, w)).2.1 !! c = memory a !! c.
Proof.
  rewrite invoke_agent_eq. cbn zeta.
  destruct (llm a) as [l|] eqn:Hl; [destruct (provider w _ _ _)|]; cbn.
  all: repeat split; try done.
  all: intros c Hc; by rewrite lookup_insert_ne.
Qed.

Lemma invoke_agent_frame_witness :
  memory (invoke_agent "Hi" "c1"
            (mock_agent, mock_world (mock_reply (AIMessage "Hi there, friend!")))).2.1 !! "c2"
    = memory mock_agent !! "c2".
Proof.
  by apply (invoke_agent_frame "Hi" "c1" mock_agent
              (mock_world (mock_reply (AIMessage "Hi there, friend!")))).
Defined.

(** No retry: a turn makes exactly one request when the agent has a model
    handle, whether the request succeeds or not, and none otherwise. *)
Theorem invoke_agent_sends_once (text cid : string) (a : LumoAgent) (w : World) :
  length (sent (invoke_agent text cid (a, w)).2.2) =
    length (sent w) + match llm a with Some _ => 1 | None => 0 end.
Proof.
  rewrite invoke_agent_eq. cbn zeta.
  destruct (llm a) as [l|]; [destruct (provider w _ _ _)|]; cbn;
    rewrite ?length_app; cbn; lia.
Qed.

(** A reply that is not an [AIMessage] is stored in the history like any
    other, while the caller is told that Lumo is quiet. *)
Theorem non_assistant_reply_is_stored
    (cid text : string) (a : LumoAgent) (w : World) (l : ChatGoogleGenerativeAI) (m : Message) :
  llm a = Some l →
  provider w (length (sent w)) l
    ([SystemMessage (system_prompt a)] ++ history a cid ++ [HumanMessage text]) = Replied m →
  isinstance_AIMessage m = false →
  ∃ a' w',
    invoke_agent text cid (a, w) = (Ok AGENT_QUIET, (a', w')) ∧
    history a' cid = history a cid ++ [HumanMessage text; m].
Proof.
  intros Hl Hreply Hm. rewrite invoke_agent_eq, Hl. cbn zeta.
  cbn [app] in Hreply. rewrite Hreply, Hm.
  eexists _, _. split; [reflexivity|]. by rewrite history_insert_eq, <-app_assoc.
Qed.

Lemma non_assistant_reply_is_stored_witness :
  ∃ a' w',
    invoke_agent "Hi" "c1" (mock_agent, mock_world (mock_reply (HumanMessage "echo")))
      = (Ok AGENT_QUIET, (a', w')) ∧
    history a' "c1" = history mock_agent "c1" ++ [HumanMessage "Hi"; HumanMessage "echo"].
Proof.
  apply (non_assistant_reply_is_stored "c1" "Hi" mock_agent
           (mock_world (mock_reply (HumanMessage "echo"))) mock_llm (HumanMessage "echo"));
    reflexivity.
Defined.

(** ** The node *)

(** The node reads [state["messages"]] outside its [try]: with a model
    handle and a state lacking that key it raises [KeyError], before any
    request is made. *)
Theorem call_toy_llm_missing_key
    (state : gmap string (list Message)) (a : LumoAgent) (w : World)
    (l : ChatGoogleGenerativeAI) :
  llm a = Some l →
  state !! "messages" = None →
  _call_toy_llm state (a, w) = (Raise (KeyError "messages"), (a, w)).
Proof.
  intros Hl Hkey. unfold _call_toy_llm, mbind, Py_bind, bind, gets. cbn [fst].
  rewrite Hl. unfold dict_getitem. by rewrite Hkey.
Qed.

Lemma call_toy_llm_missing_key_witness :
  _call_toy_llm ∅ (mock_agent, mock_world (mock_reply (AIMessage "Beep!")))
    = (Raise (KeyError "messages"), (mock_agent, mock_world (mock_reply (AIMessage "Beep!")))).
Proof.
  apply (call_toy_llm_missing_key ∅ mock_agent (mock_world (mock_reply (AIMessage "Beep!")))
           mock_llm); reflexivity.
Defined.

(** On a state that has its [messages], the node never raises and never
    touches the agent: it returns an update of exactly one message.  Without
    a model handle that is the "trouble thinking" text and nothing is sent;
    with one, a single request is sent, the state's messages behind the
    persona, and the message is the reply, or the apology when the request
    raised. *)
Theorem call_toy_llm_returns_one_message
    (state : gmap string (list Message)) (msgs : list Message) (a : LumoAgent) (w : World) :
  state !! "messages" = Some msgs →
  ∃ m w',
    _call_toy_llm state (a, w) = (Ok {[ "messages" := [m] ]}, (a, w')) ∧
    m = match llm a with
        | None => AIMessage NODE_NO_LLM_REPLY
        | Some l =>
            match provider w (length (sent w)) l ([SystemMessage (system_prompt a)] ++ msgs) with
            | Replied reply => reply
            | Failed _ => AIMessage LLM_ERROR_REPLY
            end
        end ∧
    sent w' = match llm a with
              | None => sent w
              | Some _ => sent w ++ [[SystemMessage (system_prompt a)] ++ msgs]
              end.
Proof.
  intros Hmsgs. unfold _call_toy_llm, mbind, Py_bind, bind, gets. cbn [fst].
  destruct (llm a) as [l|].
  - unfold dict_getitem. rewrite Hmsgs.
    unfold mret, Py_ret, ret, try_except, in_world, llm_invoke, print, modify. cbn.
    destruct (provider w _ _ _); eexists _, _; by repeat split.
  - eexists _, _. by repeat split.
Qed.

Lemma call_toy_llm_returns_one_message_witness :
  ∃ m w',
    _call_toy_llm {[ "messages" := [HumanMessage "Hi"] ]}
      (mock_agent, mock_world (mock_failure connection_error))
      = (Ok {[ "messages" := [m] ]}, (mock_agent, w')) ∧
    m = AIMessage LLM_ERROR_REPLY ∧
    sent w' = [[SystemMessage DEFAULT_AI_TOY_SYSTEM_PROMPT; HumanMessage "Hi"]].
Proof.
  apply (call_toy_llm_returns_one_message {[ "messages" := [HumanMessage "Hi"] ]}
           [HumanMessage "Hi"] mock_agent (mock_world (mock_failure connection_error))).
  reflexivity.
Defined.

(** ** Sequences of turns *)

(** No truncation and no retry over a whole conversation: after the turns
    [texts] on one conversation, whatever the gateway did, its history is
    longer by two entries per turn and exactly one request per turn was
    made. *)
Theorem history_grows_by_two_per_turn
    (texts : list string) (cid : string) (a : LumoAgent) (w : World)
    (l : ChatGoogleGenerativeAI) :
  llm a = Some l →
  ∃ a' w',
    for_each texts (λ t, perform (Submit t cid)) (a, w) = (Ok tt, (a', w')) ∧
    length (history a' cid) = length (history a cid) + 2 * length texts ∧
    length (sent w') = length (sent w) + length texts.
Proof.
  revert a w. induction texts as [|t texts IH]; intros a w Hl.
  - exists a, w. cbn. repeat split; lia.
  - cbn [for_each perform]. unfold mbind, Py_bind, bind, mret, Py_ret, ret.
    rewrite invoke_agent_eq, Hl. cbn zeta.
    destruct (provider w _ _ _) as [m|e]; cbn beta iota.
    + destruct (IH (set_memory <[cid := (history a cid ++ [HumanMessage t]) ++ [m]]> a)
                  (set_sent (λ s, s ++ [SystemMessage (system_prompt a)
                                        :: history a cid ++ [HumanMessage t]])
                     (set_turns (λ l0, l0 ++ [(t, cid)]) w)) Hl)
        as (a' & w' & Hrun & Hh & Hs).
      exists a', w'. split; [exact Hrun|].
      rewrite Hh, Hs, history_insert_eq. cbn. rewrite !length_app. cbn. lia.
    + destruct (IH (set_memory <[cid := (history a cid ++ [HumanMessage t])
                                         ++ [AIMessage LLM_ERROR_REPLY]]> a)
                  (set_stdout (λ out, out ++ ["Error during LLM invocation: " +:+ exn_str e])
                     (set_sent (λ s, s ++ [SystemMessage (system_prompt a)
                                           :: history a cid ++ [HumanMessage t]])
                        (set_turns (λ l0, l0 ++ [(t, cid)]) w))) Hl)
        as (a' & w' & Hrun & Hh & Hs).
      exists a', w'. split; [exact Hrun|].
      rewrite Hh, Hs, history_insert_eq. cbn. rewrite !length_app. cbn. lia.
Qed.

Lemma history_grows_by_two_per_turn_witness :
  ∃ a' w',
    for_each ["Hi"; "Tell me a joke"; ""] (λ t, perform (Submit t "c1"))
      (mock_agent, mock_world (mock_failure_after_probe connection_error)) = (Ok tt, (a', w')) ∧
    length (history a' "c1") = length (history mock_agent "c1") + 2 * 3 ∧
    length (sent w') = 0 + 3.
Proof.
  apply (history_grows_by_two_per_turn ["Hi"; "Tell me a joke"; ""] "c1" mock_agent
           (mock_world (mock_failure_after_probe connection_error)) mock_llm).
  reflexivity.
Defined.

(** Every request made by a sequence of calls starts with one System
    message, the persona, and holds no other System message, as long as the
    stored histories and the gateway's answers hold none. *)
Theorem requests_lead_with_single_system_message
    (calls : list Call) (a : LumoAgent) (w : World) :
  (∀ n l msgs m, provider w n l msgs = Replied m → isinstance_SystemMessage m = false) →
  (∀ c m, m ∈ history a c → isinstance_SystemMessage m = false) →
  ∃ a' w' new,
    for_each calls perform (a, w) = (Ok tt, (a', w')) ∧
    sent w' = sent w ++ new ∧
    Forall (λ request, ∃ p rest, request = SystemMessage p :: rest ∧
                Forall (λ m, isinstance_SystemMessage m = false) rest) new.
Proof.
  revert a w. induction calls as [|c calls IH]; intros a w Hgw Hinv.
  - exists a, w, []. by rewrite app_nil_r.
  - destruct (perform_appends c a w Hgw) as (a1 & w1 & Hstep & Hprov & Happ).
    assert (∃ new1, sent w1 = sent w ++ new1 ∧
              Forall (λ request, ∃ p rest, request = SystemMessage p :: rest ∧
                         Forall (λ m, isinstance_SystemMessage m = false) rest) new1)
      as (new1 & Hs1 & Hnew1).
    { destruct c as [text conv|p]; cbn [perform] in Hstep.
      - unfold mbind, Py_bind, bind, mret, Py_ret, ret in Hstep.
        rewrite invoke_agent_eq in Hstep. cbn zeta in Hstep.
        assert (Forall (λ m, isinstance_SystemMessage m = false)
                  (history a conv ++ [HumanMessage text])) as Hrest.
        { apply Forall_app. split; [apply Forall_forall; intros m; apply Hinv|].
          by repeat constructor. }
        destruct (llm a) as [l|].
        + destruct (provider w _ _ _); injection Hstep as _ <-;
            eexists [_]; (split; [reflexivity|]); repeat constructor; eauto.
        + injection Hstep as _ <-. exists []. by rewrite app_nil_r.
      - rewrite update_system_prompt_eq in Hstep. injection Hstep as _ <-.
        exists []. by rewrite app_nil_r. }
    destruct (IH a1 w1) as (a2 & w2 & new2 & Hrun & Hs2 & Hnew2).
    + by rewrite Hprov.
    + intros cid m. destruct (Happ cid) as (new & -> & Hnew).
      rewrite elem_of_app. intros [Hin|Hin]; [by eapply Hinv|].
      by eapply Forall_forall in Hnew.
    + exists a2, w2, (new1 ++ new2). cbn [for_each]. unfold mbind, Py_bind, bind.
      rewrite Hstep, Hrun, Hs2, Hs1, <-app_assoc. repeat split. by apply Forall_app.
Qed.

Lemma requests_lead_with_single_system_message_witness :
  ∃ a' w' new,
    for_each [Submit "Hi" "c1"; ApplyPersona "Be a robot."; Submit "Again" "c1"] perform
      (mock_agent, mock_world (mock_reply (AIMessage "Beep!"))) = (Ok tt, (a', w')) ∧
    sent w' = sent (mock_world (mock_reply (AIMessage "Beep!"))) ++ new ∧
    Forall (λ request, ∃ p rest, request = SystemMessage p :: rest ∧
                Forall (λ m, isinstance_SystemMessage m = false) rest) new.
Proof.
  apply (requests_lead_with_single_system_message
           [Submit "Hi" "c1"; ApplyPersona "Be a robot."; Submit "Again" "c1"]
           mock_agent (mock_world (mock_reply (AIMessage "Beep!")))).
  - intros n l msgs m [= <-]. reflexivity.
  - intros c m. unfold history. cbn. rewrite lookup_empty. cbn. by intros ?%elem_of_nil.
Defined.

(** * Further properties of the Streamlit script *)

(** Case analysis on everything a run of the script depends on. *)
Ltac crunch_script :=
  repeat first
    [ progress cbn -[DEFAULT_AI_TOY_SYSTEM_PROMPT]
    | rewrite initialize_llm_eq
    | rewrite invoke_agent_eq
    | rewrite update_system_prompt_eq
    | case_bool_decide
    | match goal with
      | |- context [match secrets ?w !! "gemini" with _ => _ end] =>
          destruct (secrets w !! "gemini") as [?g|]
      | |- context [match ?g !! "api_key" with _ => _ end] =>
          destruct (g !! "api_key") as [?k|]
      | |- context [match provider ?w ?n ?l ?msgs with _ => _ end] =>
          destruct (provider w n l msgs) as [?m|?e] eqn:?Hout
      end ].

(** What every run of the script guarantees, by cases on the session state,
    the interaction and the outcome of every initialization and request. *)
Lemma run_script_outcome (ev : Interaction) (ss : SessionState) (w : World) :
  ∃ e r w',
    run_script ev ss w = (Ok e, (r, w')) ∧
    (is_Some (conversation_id (session_state r)) ∧
     is_Some (current_system_prompt (session_state r)) ∧
     is_Some (agent (session_state r))) ∧
    (e = Stopped ∧ agent ss = None ∨
     is_Some (messages (session_state r)) ∧
     e = match ev with ResetButton => Rerun | _ => Finished end) ∧
    (persona_in_sync ss → persona_in_sync (session_state r)) ∧
    (∀ c, conversation_id ss = Some c → ev ≠ ResetButton →
          conversation_id (session_state r) = Some c ∧ uuid_drawn w' = uuid_drawn w) ∧
    provider w' = provider w.
Proof.
  destruct ss as [cid p oa msgs].
  step_script. unfold reset_state, reset_greeting, LumoAgent__init__. step_script.
  destruct cid as [cid|], p as [p|], oa as [[sp mn [l|] mem]|], msgs as [msgs|], ev as [|edited|prompt|].
  all: crunch_script.
  all: eexists _, _, _; split; [reflexivity|].
  all: split; [repeat split; eexists; reflexivity|].
  all: split; [first [left; split; reflexivity
                     | right; split; [eexists; reflexivity | reflexivity]]|].
  all: split; [unfold persona_in_sync; cbn; intros HJ a' [= <-]; cbn;
               first [reflexivity
                     | specialize (HJ _ eq_refl); cbn in HJ;
                       first [discriminate HJ | injection HJ as ->; reflexivity]]|].
  all: split; [|reflexivity].
  all: intros c' [= <-] Hev; first [by destruct Hev | split; reflexivity].
Qed.

(** A run of the script never ends in an uncaught exception, whatever the
    session state it starts from: afterwards the conversation id, the system
    prompt and the agent are set, and either the run was stopped while
    building the agent, or the message list is set too and the run ends in a
    rerun exactly for the reset button. *)
Theorem script_never_raises (ev : Interaction) (ss : SessionState) (w : World) :
  ∃ e r w',
    run_script ev ss w = (Ok e, (r, w')) ∧
    is_Some (conversation_id (session_state r)) ∧
    is_Some (current_system_prompt (session_state r)) ∧
    is_Some (agent (session_state r)) ∧
    (e = Stopped ∧ agent ss = None ∨
     is_Some (messages (session_state r)) ∧
     e = match ev with ResetButton => Rerun | _ => Finished end).
Proof.
  destruct (run_script_outcome ev ss w) as (e & r & w' & Hrun & (? & ? & ?) & Hend & _).
  by exists e, r, w'.
Qed.

(** From a new session on, through prompt edits, chats and resets, the
    agent in the session always runs on the system prompt the session
    holds: an edit reaches the agent at once and a reset does not lose it. *)
Theorem persona_stays_in_sync (evs : list Interaction) (w : World) :
  persona_in_sync (run_session evs new_session w).1.
Proof.
  assert (∀ ss, persona_in_sync ss → persona_in_sync (run_session evs ss w).1) as Hgen.
  { revert w. induction evs as [|ev evs IH]; intros w ss Hss; [done|].
    destruct (run_script_outcome ev ss w) as (e & r & w' & Hrun & _ & _ & Hsync & _).
    cbn [run_session]. rewrite Hrun. by apply IH, Hsync. }
  apply Hgen. by intros a.
Qed.

(** The conversation id is drawn once: runs other than a reset keep it and
    draw no further identifier. *)
Theorem conversation_id_changes_only_on_reset
    (evs : list Interaction) (ss : SessionState) (w : World) (c : string) :
  conversation_id ss = Some c →
  ResetButton ∉ evs →
  conversation_id (run_session evs ss w).1 = Some c ∧
  uuid_drawn (run_session evs ss w).2 = uuid_drawn w.
Proof.
  revert ss w. induction evs as [|ev evs IH]; intros ss w Hc Hevs; [done|].
  apply not_elem_of_cons in Hevs as [Hev Hevs].
  destruct (run_script_outcome ev ss w) as (e & r & w' & Hrun & _ & _ & _ & Hid & _).
  destruct (Hid c Hc (not_eq_sym Hev)) as [Hc' Hd].
  cbn [run_session]. rewrite Hrun, <-Hd. by apply IH.
Qed.

Lemma conversation_id_changes_only_on_reset_witness :
  conversation_id
    (run_session [ChatInput "Hi"; ApplyPromptButton "Be a robot."]
       (mkSession (Some "0") None None None) (mock_world (mock_reply (AIMessage "Beep!")))).1
    = Some "0" ∧
  uuid_drawn
    (run_session [ChatInput "Hi"; ApplyPromptButton "Be a robot."]
       (mkSession (Some "0") None None None) (mock_world (mock_reply (AIMessage "Beep!")))).2
    = uuid_drawn (mock_world (mock_reply (AIMessage "Beep!"))).
Proof.
  apply (conversation_id_changes_only_on_reset
           [ChatInput "Hi"; ApplyPromptButton "Be a robot."]
           (mkSession (Some "0") None None None)
           (mock_world (mock_reply (AIMessage "Beep!"))) "0").
  - reflexivity.
  - by intros [|[|?%elem_of_nil]%elem_of_cons]%elem_of_cons.
Defined.

(** Start-up, when all goes well: the run ends normally, the greeting
    trigger is sent as the first turn of the new conversation, only Lumo's
    answer to it appears in the transcript, and the transcript mirrors the
    history from then on. *)
Theorem startup_greets (w : World) (l : ChatGoogleGenerativeAI) (greeting : string) :
  (_initialize_llm MODEL_NAME w).1 = Ok (Some l) →
  provider w (length (sent w) + 1) l
    [SystemMessage DEFAULT_AI_TOY_SYSTEM_PROMPT; HumanMessage GREETING_TRIGGER]
    = Replied (AIMessage greeting) →
  ∃ r w',
    run_script NoInteraction new_session w = (Ok Finished, (r, w')) ∧
    conversation_id (session_state r) = Some (uuid_source w (uuid_drawn w)) ∧
    messages (session_state r) = Some [("assistant", greeting)] ∧
    turns w' = turns w ++ [(GREETING_TRIGGER, uuid_source w (uuid_drawn w))] ∧
    st_chat_message "assistant" greeting ∈ page r ∧
    transcript_mirrors_history (session_state r).
Proof.
  intros Hinit Hgreet. rewrite initialize_llm_eq in Hinit. cbn zeta in Hinit.
  step_script. unfold LumoAgent__init__, new_session. step_script.
  cbn -[DEFAULT_AI_TOY_SYSTEM_PROMPT]. rewrite initialize_llm_eq.
  cbn -[DEFAULT_AI_TOY_SYSTEM_PROMPT].
  destruct (secrets w !! "gemini") as [g|]; [|discriminate Hinit].
  destruct (g !! "api_key") as [k|]; [|discriminate Hinit].
  destruct (provider w _ _ _) as [m|e]; [|discriminate Hinit].
  injection Hinit as <-.
  cbn -[DEFAULT_AI_TOY_SYSTEM_PROMPT]. rewrite invoke_agent_eq.
  cbn -[DEFAULT_AI_TOY_SYSTEM_PROMPT].
  unfold history at 1 2. cbn [memory]. rewrite lookup_empty. cbn [default app].
  rewrite length_app. cbn [length]. rewrite Hgreet.
  cbn -[DEFAULT_AI_TOY_SYSTEM_PROMPT].
  eexists _, _. split; [reflexivity|]. repeat split.
  - set_solver.
  - eexists _, _, _, _, _. repeat (split; [reflexivity|]). cbn.
    by rewrite history_insert_eq.
Qed.

Lemma startup_greets_witness :
  ∃ r w',
    run_script NoInteraction new_session (mock_world (mock_reply (AIMessage "Hi there, friend!")))
      = (Ok Finished, (r, w')) ∧
    messages (session_state r) = Some [("assistant", "Hi there, friend!")] ∧
    transcript_mirrors_history (session_state r).
Proof.
  destruct (startup_greets (mock_world (mock_reply (AIMessage "Hi there, friend!")))
              mock_llm "Hi there, friend!" eq_refl eq_refl)
    as (r & w' & Hrun & _ & Hm & _ & _ & Hmirror).
  by exists r, w'.
Defined.

(** One run that is not a reset keeps the transcript in step with the
    history, as long as the gateway answers with Assistant messages. *)
Lemma run_keeps_transcript_in_step (ev : Interaction) (ss : SessionState) (w : World) :
  (∀ n l msgs m, provider w n l msgs = Replied m → isinstance_AIMessage m = true) →
  ev ≠ ResetButton →
  transcript_mirrors_history ss →
  ∃ e r w',
    run_script ev ss w = (Ok e, (r, w')) ∧
    provider w' = provider w ∧
    transcript_mirrors_history (session_state r).
Proof.
  intros Hgw Hev (c & p & a & t & l & Hc & Hp & Ha & Ht & Hl & Hh).
  destruct ss as [oc op oa ot]. cbn in Hc, Hp, Ha, Ht. subst oc op oa ot.
  destruct a as [sp mn ol mem]. cbn in Hl. subst ol.
  step_script.
  destruct ev as [|edited|prompt|]; [| | |done]; crunch_script.
  all: eexists _, _, _; split; [reflexivity|]; split; [reflexivity|].
  all: unfold transcript_mirrors_history; cbn.
  all: eexists _, _, _, _, _; repeat (split; [reflexivity|]).
  all: try exact Hh.
  - rewrite history_insert_eq, Hh. rewrite !fmap_app. cbn.
    apply Hgw in Hout. destruct m; try discriminate Hout. reflexivity.
  - rewrite history_insert_eq, Hh. rewrite !fmap_app. reflexivity.
Qed.

(** Over a whole session without reset the page transcript mirrors the
    stored history: the history of the current conversation is the hidden
    greeting trigger followed by exactly the entries shown, users' texts as
    Human messages and Lumo's texts (apologies included) as Assistant
    messages.  The gateway is taken to answer with Assistant messages. *)
Theorem session_transcript_mirrors_history
    (evs : list Interaction) (ss : SessionState) (w : World) :
  (∀ n l msgs m, provider w n l msgs = Replied m → isinstance_AIMessage m = true) →
  ResetButton ∉ evs →
  transcript_mirrors_history ss →
  transcript_mirrors_history (run_session evs ss w).1.
Proof.
  revert ss w. induction evs as [|ev evs IH]; intros ss w Hgw Hevs Hss; [done|].
  apply not_elem_of_cons in Hevs as [Hev Hevs].
  destruct (run_keeps_transcript_in_step ev ss w Hgw (not_eq_sym Hev) Hss) as (e & r & w' & Hrun & Hprov & Hr).
  cbn [run_session]. rewrite Hrun. apply IH; [by rewrite Hprov|done..].
Qed.

Lemma session_transcript_mirrors_history_witness :
  transcript_mirrors_history
    (run_session [ChatInput "Hi"; ApplyPromptButton "Be a robot."; ChatInput "Again"]
       (mkSession (Some "0") (Some "Be a pirate.")
          (Some (mkAgent "Be a pirate." MODEL_NAME (Some mock_llm)
                   {[ "0" := [HumanMessage "Hello!"; AIMessage "Ahoy!"] ]}))
          (Some [("assistant", "Ahoy!")]))
       (mock_world (mock_failure_after_probe connection_error))).1.
Proof.
  apply (session_transcript_mirrors_history
           [ChatInput "Hi"; ApplyPromptButton "Be a robot."; ChatInput "Again"]).
  - intros n l msgs m. cbn. unfold mock_failure_after_probe.
    destruct (bool_decide (n = 0)); intros [= <-]; reflexivity.
  - by intros [|[|[|?%elem_of_nil]%elem_of_cons]%elem_of_cons]%elem_of_cons.
  - eexists _, _, _, _, _. repeat (split; [reflexivity|]). reflexivity.
Defined.

(** A reset on a running session ends in a rerun with a new conversation
    id and a new agent built on the session's current system prompt; in the
    new agent every conversation other than the new one, the old one
    included, has no history. *)
Theorem reset_keeps_persona_and_drops_histories
    (ss : SessionState) (w : World) (c p : string) (a : LumoAgent) (t : list (string * string)) :
  conversation_id ss = Some c → current_system_prompt ss = Some p →
  agent ss = Some a → messages ss = Some t →
  ∃ r w' a',
    run_script ResetButton ss w = (Ok Rerun, (r, w')) ∧
    conversation_id (session_state r) = Some (uuid_source w (uuid_drawn w)) ∧
    current_system_prompt (session_state r) = Some p ∧
    agent (session_state r) = Some a' ∧
    system_prompt a' = p ∧
    ∀ c', c' ≠ uuid_source w (uuid_drawn w) → history a' c' = [].
Proof.
  intros Hc Hp Ha Ht. destruct ss as [oc op oa ot]. cbn in Hc, Hp, Ha, Ht. subst oc op oa ot.
  step_script. unfold reset_state, reset_greeting, LumoAgent__init__. step_script.
  crunch_script.
  all: eexists _, _, _; split; [reflexivity|]; repeat (split; [reflexivity|]).
  all: intros c' Hc'; rewrite ?history_insert_ne by done.
  all: unfold history; cbn [memory]; by rewrite lookup_empty.
Qed.

Lemma reset_keeps_persona_and_drops_histories_witness :
  ∃ r w' a',
    run_script ResetButton
      (mkSession (Some "0") (Some "Be a pirate.")
         (Some (mkAgent "Be a pirate." MODEL_NAME (Some mock_llm)
                  {[ "0" := [HumanMessage "Hello!"; AIMessage "Ahoy!"] ]}))
         (Some [("assistant", "Ahoy!")]))
      (set_uuid_drawn (λ _, 1) (mock_world (mock_reply (AIMessage "Ahoy again!"))))
      = (Ok Rerun, (r, w')) ∧
    conversation_id (session_state r) = Some "1" ∧
    current_system_prompt (session_state r) = Some "Be a pirate." ∧
    agent (session_state r) = Some a' ∧
    system_prompt a' = "Be a pirate." ∧
    history a' "0" = [].
Proof.
  destruct (reset_keeps_persona_and_drops_histories
              (mkSession (Some "0") (Some "Be a pirate.")
                 (Some (mkAgent "Be a pirate." MODEL_NAME (Some mock_llm)
                          {[ "0" := [HumanMessage "Hello!"; AIMessage "Ahoy!"] ]}))
                 (Some [("assistant", "Ahoy!")]))
              (set_uuid_drawn (λ _, 1) (mock_world (mock_reply (AIMessage "Ahoy again!"))))
              "0" "Be a pirate." _ _ eq_refl eq_refl eq_refl eq_refl)
    as (r & w' & a' & Hrun & Hc & Hp & Ha & Hsp & Hdrop).
  exists r, w', a'. repeat (split; [assumption|]). by apply Hdrop.
Defined.

(** When the initialization repeated by a reset fails, the run is not
    stopped: it shows the error and reruns with an empty transcript, and the
    chat stays open.  A message typed then is answered with the
    "not available" text, without any request and without any history being
    written. *)
Theorem failed_reset_leaves_chat_open
    (ss : SessionState) (w : World) (c p prompt : string) (a : LumoAgent)
    (t : list (string * string)) :
  conversation_id ss = Some c → current_system_prompt ss = Some p →
  agent ss = Some a → messages ss = Some t →
  (_initialize_llm MODEL_NAME w).1 = Ok None →
  prompt ≠ "" →
  ∃ r1 w1 r2 w2 a2,
    run_script ResetButton ss w = (Ok Rerun, (r1, w1)) ∧
    st_error REINIT_ERROR ∈ page r1 ∧
    messages (session_state r1) = Some [] ∧
    run_script (ChatInput prompt) (session_state r1) w1 = (Ok Finished, (r2, w2)) ∧
    messages (session_state r2) = Some [("user", prompt); ("assistant", AGENT_UNAVAILABLE)] ∧
    sent w2 = sent w1 ∧
    agent (session_state r2) = Some a2 ∧ memory a2 = ∅.
Proof.
  intros Hc Hp Ha Ht Hinit Hprompt.
  destruct ss as [oc op oa ot]. cbn in Hc, Hp, Ha, Ht. subst oc op oa ot.
  rewrite initialize_llm_eq in Hinit. cbn zeta in Hinit.
  step_script. unfold reset_state, reset_greeting, LumoAgent__init__. step_script.
  cbn. rewrite initialize_llm_eq. cbn.
  destruct (secrets w !! "gemini") as [g|];
    [destruct (g !! "api_key") as [k|];
       [destruct (provider w _ _ _); [discriminate Hinit|] |] |].
  all: cbn; eexists _, _; eexists; eexists; eexists.
  all: split; [reflexivity|]; split; [set_solver|]; split; [reflexivity|].
  all: repeat first [ progress cbn
                    | rewrite bool_decide_eq_true_2 by done
                    | rewrite invoke_agent_eq ].
  all: by repeat split.
Qed.

Lemma failed_reset_leaves_chat_open_witness :
  ∃ r1 w1 r2 w2 a2,
    run_script ResetButton
      (mkSession (Some "0") (Some "Be a pirate.") (Some mock_agent) (Some []))
      mock_world_without_secrets = (Ok Rerun, (r1, w1)) ∧
    st_error REINIT_ERROR ∈ page r1 ∧
    messages (session_state r1) = Some [] ∧
    run_script (ChatInput "Hi") (session_state r1) w1 = (Ok Finished, (r2, w2)) ∧
    messages (session_state r2) = Some [("user", "Hi"); ("assistant", AGENT_UNAVAILABLE)] ∧
    sent w2 = sent w1 ∧
    agent (session_state r2) = Some a2 ∧ memory a2 = ∅.
Proof.
  apply (failed_reset_leaves_chat_open
           (mkSession (Some "0") (Some "Be a pirate.") (Some mock_agent) (Some []))
           mock_world_without_secrets "0" "Be a pirate." "Hi" mock_agent []);
    done.
Defined.

(** * The [__main__] block *)

(** The loop, for any agent: it forwards to [invoke_agent], in order, the
    lines read before the first one that lowers to "quit", leaving out those
    that are not empty but strip to the empty string; it ends normally at
    that line and in [EOFError] when there is none. *)
Lemma chat_loop_outcome (str_lower str_strip : string → string) (cid : string)
    (stdin : list string) (a : LumoAgent) (w : World) :
  ∃ r a' w',
    chat_loop str_lower str_strip cid stdin (a, w) = (r, (a', w')) ∧
    llm a' = llm a ∧
    turns w' = turns w ++
      ((λ t, (t, cid)) <$>
         filter (λ t, t = "" ∨ str_strip t ≠ "")
           (take_while (λ t, negb (bool_decide (str_lower t = "quit"))) stdin)) ∧
    r = if bool_decide (Exists (λ t, str_lower t = "quit") stdin)
        then Ok tt else Raise EOFError.
Proof.
  revert a w. induction stdin as [|t stdin IH]; intros a w.
  - eexists _, _, _. split; [reflexivity|]. cbn. rewrite app_nil_r. done.
  - cbn [chat_loop take_while].
    unfold mbind, Py_bind, bind, in_world, print, modify. cbn beta iota.
    destruct (decide (str_lower t = "quit")) as [Hquit|Hquit].
    + rewrite !(bool_decide_eq_true_2 (str_lower t = "quit")) by done. cbn [negb].
      eexists _, _, _. split; [reflexivity|]. cbn. rewrite app_nil_r.
      split; [done|]. split; [done|].
      rewrite bool_decide_eq_true_2; [done|]. by left.
    + rewrite !(bool_decide_eq_false_2 (str_lower t = "quit")) by done. cbn [negb].
      assert (bool_decide (Exists (λ t0, str_lower t0 = "quit") (t :: stdin))
              = bool_decide (Exists (λ t0, str_lower t0 = "quit") stdin)) as ->.
      { apply bool_decide_ext. rewrite Exists_cons. tauto. }
      destruct (bool_decide (str_strip t = "") && bool_decide (t ≠ "")) eqn:Hblank.
      * apply andb_prop in Hblank as [Hs%bool_decide_eq_true Ht%bool_decide_eq_true].
        rewrite filter_cons_False by (by intros [?|?]).
        destruct (IH a (set_stdout (λ out, out ++ [MAIN_DID_YOU_SAY])
                          (set_stdout (λ out, out ++ [MAIN_YOU]) w)))
          as (r & a' & w' & -> & ? & ? & ?).
        by exists r, a', w'.
      * rewrite filter_cons_True.
        2:{ apply andb_false_iff in Hblank as [Hs%bool_decide_eq_false|Ht%bool_decide_eq_false];
              [by right|left; by destruct (decide (t = ""))]. }
        rewrite invoke_agent_eq. cbn zeta.
        destruct (llm a) as [l|] eqn:Hl; [destruct (provider _ _ _ _)|]; cbn beta iota.
        all: match goal with
             | |- context [chat_loop _ _ _ _ (?a1, ?w1)] =>
                 destruct (IH a1 w1) as (r & a' & w' & -> & Hl' & Ht' & Hr)
             end.
        all: exists r, a', w'; split; [reflexivity|]; split; [by rewrite Hl'|].
        all: split; [|done]; rewrite Ht'; cbn; by rewrite <-app_assoc.
Qed.

(** Started with a working model, the program greets with the turn "Hi"
    and then forwards to the agent, in order and on one conversation, the
    lines typed before the first "quit" (in any letter case [str.lower]
    undoes), skipping lines that are blank without being empty; the empty
    line is forwarded.  It ends normally at "quit" and with an uncaught
    [EOFError] when the input runs out first. *)
Theorem main_forwards_until_quit
    (str_lower str_strip : string → string) (stdin : list string) (w : World)
    (l : ChatGoogleGenerativeAI) :
  (_initialize_llm MODEL_NAME w).1 = Ok (Some l) →
  ∃ r w',
    main str_lower str_strip stdin w = (r, w') ∧
    turns w' = turns w ++
      ((λ t, (t, uuid_source w (uuid_drawn w))) <$>
         "Hi" :: filter (λ t, t = "" ∨ str_strip t ≠ "")
                   (take_while (λ t, negb (bool_decide (str_lower t = "quit"))) stdin)) ∧
    r = if bool_decide (Exists (λ t, str_lower t = "quit") stdin)
        then Ok tt else Raise EOFError.
Proof.
  intros Hinit. rewrite initialize_llm_eq in Hinit. cbn zeta in Hinit.
  unfold main, LumoAgent__init__, with_local.
  unfold mbind, Py_bind, bind, mret, Py_ret, ret, print, modify, uuid4, in_world.
  rewrite initialize_llm_eq. cbn -[DEFAULT_AI_TOY_SYSTEM_PROMPT chat_loop].
  destruct (secrets w !! "gemini") as [g|]; [|discriminate Hinit].
  destruct (g !! "api_key") as [k|]; [|discriminate Hinit].
  destruct (provider w _ _ _) as [m|e]; [|discriminate Hinit].
  cbn -[DEFAULT_AI_TOY_SYSTEM_PROMPT chat_loop invoke_agent].
  rewrite invoke_agent_eq. cbn -[DEFAULT_AI_TOY_SYSTEM_PROMPT chat_loop].
  destruct (provider w _ _ _) as [m'|e'].
  all: match goal with
       | |- context [chat_loop _ _ ?c _ (?a1, ?w1)] =>
           destruct (chat_loop_outcome str_lower str_strip c stdin a1 w1)
             as (r & a' & w' & -> & _ & Ht & ->)
       end.
  all: cbn in Ht.
  all: case_bool_decide; eexists _, _; (split; [reflexivity|]); cbn; rewrite Ht;
         by rewrite <-app_assoc.
Qed.

Lemma main_forwards_until_quit_witness :
  ∃ w',
    main ascii_lower ascii_strip ["hello"; "   "; ""; "QuIt"; "never read"]
      (mock_world (mock_reply (AIMessage "Beep!"))) = (Ok tt, w') ∧
    turns w' = [("Hi", "0"); ("hello", "0"); ("", "0")].
Proof.
  destruct (main_forwards_until_quit ascii_lower ascii_strip
              ["hello"; "   "; ""; "QuIt"; "never read"]
              (mock_world (mock_reply (AIMessage "Beep!"))) mock_llm eq_refl)
    as (r & w' & Hrun & Ht & ->).
  exists w'. split; [exact Hrun|exact Ht].
Defined.

(** Started without a working model, the program says so and ends: it
    draws no conversation id, makes no turn and reads no input. *)
Theorem main_without_llm_reads_nothing
    (str_lower str_strip : string → string) (stdin : list string) (w : World) :
  (_initialize_llm MODEL_NAME w).1 = Ok None →
  ∃ w',
    main str_lower str_strip stdin w = (Ok tt, w') ∧
    turns w' = turns w ∧ uuid_drawn w' = uuid_drawn w ∧
    last (stdout w') = Some MAIN_NO_LLM ∧
    main str_lower str_strip [] w = (Ok tt, w').
Proof.
  intros Hinit. rewrite initialize_llm_eq in Hinit. cbn zeta in Hinit.
  unfold main, LumoAgent__init__, with_local.
  unfold mbind, Py_bind, bind, mret, Py_ret, ret, print, modify, uuid4, in_world.
  rewrite initialize_llm_eq. cbn -[DEFAULT_AI_TOY_SYSTEM_PROMPT chat_loop].
  destruct (secrets w !! "gemini") as [g|];
    [destruct (g !! "api_key") as [k|];
       [destruct (provider w _ _ _); [discriminate Hinit|] |] |].
  all: eexists; repeat split; cbn; by rewrite last_snoc.
Qed.

Lemma main_without_llm_reads_nothing_witness :
  ∃ w',
    main ascii_lower ascii_strip ["hello"] mock_world_without_secrets = (Ok tt, w') ∧
    turns w' = [] ∧ uuid_drawn w' = 0 ∧
    last (stdout w') = Some MAIN_NO_LLM ∧
    main ascii_lower ascii_strip [] mock_world_without_secrets = (Ok tt, w').
Proof.
  apply (main_without_llm_reads_nothing ascii_lower ascii_strip ["hello"]
           mock_world_without_secrets).
  reflexivity.
Defined.
